(** * Verification of [org/user_api.go]

    A shallow embedding of the user handlers of the realworld example
    application (registration, login, profile update, profile view, follow and
    unfollow) together with the properties the specification states about
    them.

    The handlers run against collaborators that are not part of
    [org/user_api.go]:

    - [golang.org/x/crypto/bcrypt] (password hashing), an interface here;
    - [httputil.UnmarshalJSON] (request decoding), an interface here;
    - the signing primitive of [CreateUserToken], an interface here;
    - the PostgreSQL store reached through [go-pg], modelled as two tables
      held in the [World] and the SQL statements the handlers issue.  The
      store is taken to be reliable: a statement fails only for the reasons
      SQL gives it (no row, a unique index), never for a lost connection.

    Every handler is a computation in the monad [M]: it threads the [World]
    and returns either a response or the Go [error] the handler returns.  No
    handler opens a transaction, so the effects that happened before an error
    stay in the world. *)

From Stdlib Require Import ZArith NArith List String Ascii Bool Lia.
Import ListNotations.

Local Open Scope Z_scope.
Local Open Scope string_scope.

(** ** Data model *)

(** Modelled from the spec: the token type ([CreateUserToken] and the token
    encoding are not in [org/user_api.go]).  A token encodes a user id and an
    expiry timestamp and carries a signature. *)
Record SessionToken : Type := mkToken {
  tokUserID    : Z;
  tokExpiresAt : Z;
  tokSignature : string
}.

(** Modelled from the spec: the [User] struct is declared outside
    [org/user_api.go]; these are the fields the handlers read and write.
    [Password], [Token] and [Following] are not columns of the user table. *)
Record User : Type := mkUser {
  ID           : Z;
  Username     : string;
  Email        : string;
  Bio          : string;
  Image        : string;
  Password     : string;
  PasswordHash : string;
  Token        : option SessionToken;
  Following    : bool
}.

(** [new(User)]: every field holds its zero value. *)
Definition newUser : User :=
  mkUser 0 "" "" "" "" "" "" None false.

Definition set_ID (v : Z) (u : User) : User :=
  mkUser v (Username u) (Email u) (Bio u) (Image u)
         (Password u) (PasswordHash u) (Token u) (Following u).

Definition set_Password (v : string) (u : User) : User :=
  mkUser (ID u) (Username u) (Email u) (Bio u) (Image u)
         v (PasswordHash u) (Token u) (Following u).

Definition set_PasswordHash (v : string) (u : User) : User :=
  mkUser (ID u) (Username u) (Email u) (Bio u) (Image u)
         (Password u) v (Token u) (Following u).

Definition set_Token (v : option SessionToken) (u : User) : User :=
  mkUser (ID u) (Username u) (Email u) (Bio u) (Image u)
         (Password u) (PasswordHash u) v (Following u).

Definition set_Following (v : bool) (u : User) : User :=
  mkUser (ID u) (Username u) (Email u) (Bio u) (Image u)
         (Password u) (PasswordHash u) (Token u) v.

(** The body of a login request: [struct { Email, Password string }]. *)
Record Credentials : Type := mkCredentials {
  credEmail    : string;
  credPassword : string
}.

(** The follow edge the follow handler inserts:
    [&FollowUser{UserID: authUser.ID, FollowedUserID: user.ID}]. *)
Record FollowUser : Type := mkFollowUser {
  UserID         : Z;
  FollowedUserID : Z
}.

Definition FollowUser_eqb (a b : FollowUser) : bool :=
  Z.eqb (UserID a) (UserID b) && Z.eqb (FollowedUserID a) (FollowedUserID b).

(** Modelled from the spec: the [Profile] view ([NewProfile] is not in
    [org/user_api.go]): username, bio, image and the [following] flag; the
    password hash and the email are never included. *)
Record Profile : Type := mkProfile {
  profUsername  : string;
  profBio       : string;
  profImage     : string;
  profFollowing : bool
}.

Definition NewProfile (user : User) : Profile :=
  mkProfile (Username user) (Bio user) (Image user) (Following user).

(** What a handler hands to [treemux.JSON]. *)
Inductive Response : Type :=
| JSONUser (user : User)
| JSONProfile (profile : Profile).

(** ** Errors *)

(** The errors of [golang.org/x/crypto/bcrypt]. *)
Inductive bcrypt_error : Type :=
| ErrMismatchedHashAndPassword
| ErrHashTooShort
| InvalidHashPrefixError
| HashVersionTooNewError
| InvalidCostError
| ErrPasswordTooLong.

(** The unique indexes of the store.  Modelled from the spec: the schema is
    not in [org/user_api.go]; the user table has unique indexes on email and
    on username, the follow table a composite unique index on
    (follower, followed). *)
Inductive Constraint : Type :=
| UniqueEmail
| UniqueUsername
| UniqueFollow.

(** The Go [error] values a handler can return.  [ErrorsNew msg] is
    [errors.New(msg)]; [PanicNilDereference] stands for the run-time panic of
    dereferencing a nil [*User]. *)
Inductive error : Type :=
| ErrorsNew (msg : string)
| ErrUnmarshal (msg : string)
| ErrBcrypt (e : bcrypt_error)
| ErrNoRows
| ErrIntegrityViolation (c : Constraint)
| ErrSign (msg : string)
| PanicNilDereference.

(** [var errUserNotFound = errors.New("Not registered email or invalid password")] *)
Definition errUserNotFound : error :=
  ErrorsNew "Not registered email or invalid password".

Definition dquote : string := String (ascii_of_nat 34) EmptyString.

(** [errors.New(`JSON field "user" is required`)] *)
Definition errUserRequired : error :=
  ErrorsNew ("JSON field " ++ dquote ++ "user" ++ dquote ++ " is required").

(** The errors that come from the storage layer unchanged. *)
Definition is_storage_error (e : error) : bool :=
  match e with
  | ErrNoRows | ErrIntegrityViolation _ => true
  | _ => false
  end.

(** ** The world: store, clock, entropy, and the log of external calls *)

(** A row of the user table: the columns the update statement names, and the
    key. *)
Record UserRow : Type := mkUserRow {
  row_id            : Z;
  row_username      : string;
  row_email         : string;
  row_bio           : string;
  row_image         : string;
  row_password_hash : string
}.

(** The calls that leave the process: password hashing, SQL statements and
    token signing. *)
Inductive Event : Type :=
| EvGenerateFromPassword (pass : string)
| EvCompareHashAndPassword (hash pass : string)
| EvSelect
| EvInsert
| EvUpdate
| EvDelete
| EvSignToken (userID : Z).

Record World : Type := mkWorld {
  users        : list UserRow;
  follow_users : list FollowUser;
  next_id      : Z;
  now          : Z;
  entropy      : N;
  trace        : list Event
}.

Definition log (ev : Event) (w : World) : World :=
  mkWorld (users w) (follow_users w) (next_id w) (now w) (entropy w)
          (trace w ++ [ev]).

Definition set_users (us : list UserRow) (w : World) : World :=
  mkWorld us (follow_users w) (next_id w) (now w) (entropy w) (trace w).

Definition set_follow_users (fs : list FollowUser) (w : World) : World :=
  mkWorld (users w) fs (next_id w) (now w) (entropy w) (trace w).

Definition set_next_id (n : Z) (w : World) : World :=
  mkWorld (users w) (follow_users w) n (now w) (entropy w) (trace w).

Definition set_entropy (n : N) (w : World) : World :=
  mkWorld (users w) (follow_users w) (next_id w) (now w) n (trace w).

(** ** The handler monad *)

Inductive Result (A : Type) : Type :=
| Ok (a : A)
| Err (e : error).

Arguments Ok {A} a.
Arguments Err {A} e.

Definition M (A : Type) : Type := World -> Result A * World.

Definition ret {A : Type} (a : A) : M A := fun w => (Ok a, w).

Definition fail {A : Type} (e : error) : M A := fun w => (Err e, w).

Definition bind {A B : Type} (m : M A) (k : A -> M B) : M B :=
  fun w =>
    match m w with
    | (Ok a, w') => k a w'
    | (Err e, w') => (Err e, w')
    end.

Definition liftR {A : Type} (r : Result A) : M A := fun w => (r, w).

Declare Scope handler_scope.
Delimit Scope handler_scope with handler.

Notation "x <- m ;; k" := (bind m (fun x => k))
  (at level 100, m at next level, right associativity) : handler_scope.

Notation "m ;;; k" := (bind m (fun _ => k))
  (at level 100, right associativity) : handler_scope.

Local Open Scope handler_scope.

(** Reading a field of a [*User] that may be nil. *)
Definition deref (p : option User) : M User :=
  match p with
  | Some u => ret u
  | None => fail PanicNilDereference
  end.

(** ** The store: the SQL statements the handlers issue through go-pg *)

(** Scanning a row into a [*User] writes the column fields and leaves
    [Password], [Token] and [Following] as they were. *)
Definition scanRow (r : UserRow) (dst : User) : User :=
  mkUser (row_id r) (row_username r) (row_email r) (row_bio r) (row_image r)
         (Password dst) (row_password_hash r) (Token dst) (Following dst).

Definition rowOf (u : User) : UserRow :=
  mkUserRow (ID u) (Username u) (Email u) (Bio u) (Image u) (PasswordHash u).

(** [ModelContext(ctx, user).Insert()]: the key is assigned by the store; the
    unique indexes on email and username reject a duplicate. *)
Definition InsertUser (user : User) : M User :=
  fun w =>
    let w1 := log EvInsert w in
    if existsb (fun r => String.eqb (row_email r) (Email user)) (users w) then
      (Err (ErrIntegrityViolation UniqueEmail), w1)
    else if existsb (fun r => String.eqb (row_username r) (Username user)) (users w) then
      (Err (ErrIntegrityViolation UniqueUsername), w1)
    else
      let user' := set_ID (next_id w) user in
      (Ok user',
       set_next_id (next_id w + 1) (set_users (users w ++ [rowOf user']) w1)).

(** [ModelContext(ctx, user).Where("email = ?", email).Select()]: a struct
    model with no matching row yields [pg.ErrNoRows]. *)
Definition SelectUserWhereEmail (email : string) (dst : User) : M User :=
  fun w =>
    let w1 := log EvSelect w in
    match find (fun r => String.eqb (row_email r) email) (users w) with
    | Some r => (Ok (scanRow r dst), w1)
    | None => (Err ErrNoRows, w1)
    end.

(** Modelled from the spec: [SelectUserByUsername] is not in
    [org/user_api.go]; [getByUsername(username) -> User | NotFound]. *)
Definition SelectUserByUsername (username : string) : M User :=
  fun w =>
    let w1 := log EvSelect w in
    match find (fun r => String.eqb (row_username r) username) (users w) with
    | Some r => (Ok (scanRow r newUser), w1)
    | None => (Err ErrNoRows, w1)
    end.

(** Modelled from the spec: the lookup behind [UserFromContext], which is not
    in [org/user_api.go]; [currentUser] verifies the token and then loads the
    user by the embedded id into a fresh [User]. *)
Definition SelectUserWhereID (id : Z) : M User :=
  fun w =>
    let w1 := log EvSelect w in
    match find (fun r => Z.eqb (row_id r) id) (users w) with
    | Some r => (Ok (scanRow r newUser), w1)
    | None => (Err ErrNoRows, w1)
    end.

(** The [Set] clauses of the update statement applied to one row. *)
Definition setColumns (email username password_hash image bio : string)
    (r : UserRow) : UserRow :=
  mkUserRow (row_id r) username email bio image password_hash.

(** [ModelContext(ctx, authUser).Set(...).Where("id = ?", id).Returning("*").Update()]:
    every row whose key is [id] gets the five columns; the returned row is
    scanned into [authUser]; no row at all is [pg.ErrNoRows]; the unique
    indexes reject an email or username another row holds. *)
Definition UpdateUserWhereID (authUser : User)
    (email username password_hash image bio : string) (id : Z) : M User :=
  fun w =>
    let w1 := log EvUpdate w in
    let hit := fun r => Z.eqb (row_id r) id in
    match find hit (users w) with
    | None => (Err ErrNoRows, w1)
    | Some r =>
      if existsb (fun r' => negb (hit r') && String.eqb (row_email r') email) (users w) then
        (Err (ErrIntegrityViolation UniqueEmail), w1)
      else if existsb (fun r' => negb (hit r') && String.eqb (row_username r') username) (users w) then
        (Err (ErrIntegrityViolation UniqueUsername), w1)
      else
        let upd := setColumns email username password_hash image bio in
        (Ok (scanRow (upd r) authUser),
         set_users (map (fun r' => if hit r' then upd r' else r') (users w)) w1)
    end.

(** [ModelContext(ctx, followUser).Insert()]: the composite unique index
    rejects an edge that is already there. *)
Definition InsertFollowUser (followUser : FollowUser) : M unit :=
  fun w =>
    let w1 := log EvInsert w in
    if existsb (FollowUser_eqb followUser) (follow_users w) then
      (Err (ErrIntegrityViolation UniqueFollow), w1)
    else
      (Ok tt, set_follow_users (follow_users w ++ [followUser]) w1).

(** The delete statement of the unfollow handler, on the [FollowUser] model
    with [Where("user_id = ?", a)] and [Where("followed_user_id = ?", b)]:
    deleting no row is no error. *)
Definition DeleteFollowUser (user_id followed_user_id : Z) : M unit :=
  fun w =>
    let w1 := log EvDelete w in
    (Ok tt,
     set_follow_users
       (filter (fun fu => negb (FollowUser_eqb (mkFollowUser user_id followed_user_id) fu))
               (follow_users w))
       w1).

(** The extra column of the profile query. *)
Inductive ColumnExpr : Type :=
| ExistsFollowing (user_id : Z)   (* EXISTS (... fu.followed_user_id = u.id AND fu.user_id = ?) *)
| FalseFollowing.                 (* false AS following *)

Definition evalColumn (c : ColumnExpr) (fus : list FollowUser) (u : UserRow) : bool :=
  match c with
  | ExistsFollowing user_id =>
      existsb (fun fu => Z.eqb (FollowedUserID fu) (row_id u)
                         && Z.eqb (UserID fu) user_id) fus
  | FalseFollowing => false
  end.

(** [ModelContext(ctx, user).ColumnExpr("u.*").Apply(followingColumn).
     Where("username = ?", name).Select()] *)
Definition SelectProfile (following : ColumnExpr) (username : string)
    (dst : User) : M User :=
  fun w =>
    let w1 := log EvSelect w in
    match find (fun r => String.eqb (row_username r) username) (users w) with
    | Some r =>
        (Ok (set_Following (evalColumn following (follow_users w) r) (scanRow r dst)), w1)
    | None => (Err ErrNoRows, w1)
    end.

(** ** External collaborators *)

(** [golang.org/x/crypto/bcrypt].  [GenerateFromPassword] draws its salt from
    the system's entropy, an explicit argument here; [CompareHashAndPassword]
    returns [nil] ([None]) when the password matches the digest,
    [ErrMismatchedHashAndPassword] when the digest is well formed and the
    password does not match, and one of the other errors when the digest is
    malformed. *)
Class Bcrypt : Type := {
  GenerateFromPassword   : N -> string -> Z -> bcrypt_error + string;
  CompareHashAndPassword : string -> string -> option bcrypt_error
}.

(** [bcrypt.DefaultCost] *)
Definition DefaultCost : Z := 10.

(** A digest is malformed for [bcrypt] when comparing against it fails with
    an error other than the mismatch. *)
Definition malformed_digest (e : bcrypt_error) : bool :=
  match e with
  | ErrMismatchedHashAndPassword => false
  | _ => true
  end.

(** The signing primitive behind [CreateUserToken], keyed by the process-wide
    secret: it signs a user id and an expiry timestamp. *)
Class TokenSigner : Type := {
  signToken : Z -> Z -> Result string
}.

(** The two shapes of [in] the handlers pass to [httputil.UnmarshalJSON]. *)
Inductive Dst : Type :=
| DstUser
| DstCredentials.

Definition dstT (d : Dst) : Type :=
  match d with
  | DstUser => User
  | DstCredentials => Credentials
  end.

(** A request: the user the authentication middleware put in the context (if
    any), the body, and the [username] route parameter. *)
Record Request : Type := mkRequest {
  ctxUser       : option User;
  Body          : string;
  ParamUsername : string
}.

(** [httputil.UnmarshalJSON(w, req, &in, maxBytes)]: the decoded [in.User]
    pointer ([None] when the field is absent), or an error. *)
Class Httputil : Type := {
  UnmarshalJSON : forall d : Dst, Request -> Z -> Result (option (dstT d))
}.

(** Go's [time] constants, in nanoseconds. *)
Definition Nanosecond  : Z := 1.
Definition Microsecond : Z := 1000 * Nanosecond.
Definition Millisecond : Z := 1000 * Microsecond.
Definition Second      : Z := 1000 * Millisecond.
Definition Minute      : Z := 60 * Second.
Definition Hour        : Z := 60 * Minute.

(** ** The handlers of [org/user_api.go] *)

Section Handlers.

Context {bcrypt : Bcrypt} {signer : TokenSigner} {httputil : Httputil}.

(** [const kb = 10] *)
Definition kb : Z := 10.

(** Modelled from the spec: [CreateUserToken] is not in [org/user_api.go];
    [issue(userID, ttl)] produces a signed token embedding [userID] and
    [now + ttl]. *)
Definition CreateUserToken (userID : Z) (ttl : Z) : M SessionToken :=
  fun w =>
    let w1 := log (EvSignToken userID) w in
    match signToken userID (now w + ttl) with
    | Ok s => (Ok (mkToken userID (now w + ttl) s), w1)
    | Err e => (Err e, w1)
    end.

Definition setUserToken (user : User) : M User :=
  token <- CreateUserToken (ID user) (24 * Hour) ;;
  ret (set_Token (Some token) user).

Definition hashPassword (pass : string) : M string :=
  fun w =>
    let w1 := log (EvGenerateFromPassword pass)
                  (set_entropy (N.succ (entropy w)) w) in
    match GenerateFromPassword (entropy w) pass DefaultCost with
    | inl e => (Err (ErrBcrypt e), w1)
    | inr bytes => (Ok bytes, w1)
    end.

Definition comparePasswords (hash pass : string) : M unit :=
  fun w =>
    let w1 := log (EvCompareHashAndPassword hash pass) w in
    match CompareHashAndPassword hash pass with
    | Some _ => (Err errUserNotFound, w1)
    | None => (Ok tt, w1)
    end.

Definition createUserHandler (req : Request) : M Response :=
  in_ <- liftR (UnmarshalJSON DstUser req (Z.shiftl 10 kb)) ;;
  match in_ with
  | None => fail errUserRequired
  | Some user =>
      hash <- hashPassword (Password user) ;;
      let user := set_PasswordHash hash user in
      user <- InsertUser user ;;
      user <- setUserToken user ;;
      let user := set_Password "" user in
      ret (JSONUser user)
  end.

Definition loginUserHandler (req : Request) : M Response :=
  in_ <- liftR (UnmarshalJSON DstCredentials req (Z.shiftl 10 kb)) ;;
  match in_ with
  | None => fail errUserRequired
  | Some inUser =>
      user <- SelectUserWhereEmail (credEmail inUser) newUser ;;
      comparePasswords (PasswordHash user) (credPassword inUser) ;;;
      user <- setUserToken user ;;
      ret (JSONUser user)
  end.

Definition updateUserHandler (req : Request) : M Response :=
  let authUser := ctxUser req in
  in_ <- liftR (UnmarshalJSON DstUser req (Z.shiftl 10 kb)) ;;
  match in_ with
  | None => fail errUserRequired
  | Some user =>
      hash <- hashPassword (Password user) ;;
      let user := set_PasswordHash hash user in
      auth <- deref authUser ;;
      authUser <- UpdateUserWhereID auth
                    (Email user) (Username user) (PasswordHash user)
                    (Image user) (Bio user) (ID auth) ;;
      let user := set_Password "" user in
      ret (JSONUser authUser)
  end.

Definition followingColumn (ctx : option User) : ColumnExpr :=
  match ctx with
  | Some authUser => ExistsFollowing (ID authUser)
  | None => FalseFollowing
  end.

Definition profileHandler (req : Request) : M Response :=
  user <- SelectProfile (followingColumn (ctxUser req)) (ParamUsername req) newUser ;;
  ret (JSONProfile (NewProfile user)).

Definition followUserHandler (req : Request) : M Response :=
  let authUser := ctxUser req in
  user <- SelectUserByUsername (ParamUsername req) ;;
  auth <- deref authUser ;;
  let followUser := mkFollowUser (ID auth) (ID user) in
  InsertFollowUser followUser ;;;
  let user := set_Following true user in
  ret (JSONProfile (NewProfile user)).

Definition unfollowUserHandler (req : Request) : M Response :=
  let authUser := ctxUser req in
  user <- SelectUserByUsername (ParamUsername req) ;;
  auth <- deref authUser ;;
  DeleteFollowUser (ID auth) (ID user) ;;;
  let user := set_Following false user in
  ret (JSONProfile (NewProfile user)).

(** Modelled from the spec: the authentication step in front of the
    handlers, which is not in [org/user_api.go]; [currentUser(token)] loads
    the user by the id the (verified) token embeds. *)
Definition currentUser (token : SessionToken) : M User :=
  SelectUserWhereID (tokUserID token).

End Handlers.

(** A body of 10241 bytes. *)
Definition bigBody : string :=
  List.fold_right String EmptyString (List.repeat "a"%char (Z.to_nat 10241)).

(** ** A sample instantiation of the collaborators

    Stand-ins for [bcrypt], the token signer and the request decoder, simple
    enough to run the handlers on concrete requests.  The general theorems
    below hold for every instantiation; these are used to evaluate them. *)

Module Sample.

(** Twenty-two salt characters drawn from the entropy. *)
Definition salt (seed : N) : string :=
  let c := ascii_of_N (65 + seed mod 26) in
  List.fold_right String EmptyString (List.repeat c 22).

Definition digestPrefix : string := "$2a$10$".

(** A digest is the version and cost prefix, the salt, and the secret part;
    the stand-in keeps the password itself as the secret part. *)
Definition generate (seed : N) (pass : string) (cost : Z) : bcrypt_error + string :=
  if Nat.ltb 72 (String.length pass) then inl ErrPasswordTooLong
  else if negb (Z.eqb cost 10) then inl InvalidCostError
  else inr (digestPrefix ++ salt seed ++ pass).

Definition compare (hash pass : string) : option bcrypt_error :=
  if Nat.ltb (String.length hash) 29 then Some ErrHashTooShort
  else if negb (String.prefix digestPrefix hash) then Some InvalidHashPrefixError
  else if String.eqb (String.substring 29 (String.length hash - 29) hash) pass then None
  else Some ErrMismatchedHashAndPassword.

#[export] Instance bcrypt : Bcrypt :=
  {| GenerateFromPassword := generate; CompareHashAndPassword := compare |}.

#[export] Instance signer : TokenSigner :=
  {| signToken := fun _ _ => Ok "signature" |}.

(** The stand-in decoder reads the fields of [in.User] separated by [;]
    (email;username;password;bio;image for a user draft, email;password for
    credentials); the empty body decodes to a nil [in.User]. *)
Fixpoint fields (acc : string) (s : string) : list string :=
  match s with
  | EmptyString => [acc]
  | String c s' =>
      if Ascii.eqb c ";"%char then acc :: fields EmptyString s'
      else fields (acc ++ String c EmptyString) s'
  end.

Definition decode (d : Dst) (req : Request) (maxBytes : Z) : Result (option (dstT d)) :=
  if Z.ltb maxBytes (Z.of_nat (String.length (Body req))) then
    Err (ErrUnmarshal "request body too large")
  else if String.eqb (Body req) "" then Ok None
  else
    match d return Result (option (dstT d)) with
    | DstUser =>
        match fields "" (Body req) with
        | [email; username; password; bio; image] =>
            Ok (Some (mkUser 0 username email bio image password "" None false))
        | _ => Err (ErrUnmarshal "malformed body")
        end
    | DstCredentials =>
        match fields "" (Body req) with
        | [email; password] => Ok (Some (mkCredentials email password))
        | _ => Err (ErrUnmarshal "malformed body")
        end
    end.

#[export] Instance httputil : Httputil := {| UnmarshalJSON := decode |}.

(** An empty store, at some instant. *)
Definition w0 : World := mkWorld [] [] 1 1700000000000000000 0 [].

Definition run {A : Type} (m : M A) (w : World) : World := snd (m w).

(** alice and bob register; then alice follows bob. *)
Definition registerAlice : Request := mkRequest None "alice@x.com;alice;secret;;" "".
Definition registerBob   : Request := mkRequest None "bob@x.com;bob;hunter2;;" "".

Definition w1 : World := run (createUserHandler registerAlice) w0.
Definition w2 : World := run (createUserHandler registerBob) w1.

(** alice as the authentication step puts her into the context. *)
Definition alice : User :=
  mkUser 1 "alice" "alice@x.com" "" "" "" (digestPrefix ++ salt 0 ++ "secret") None false.

Definition aliceFollowsBob : Request := mkRequest (Some alice) "" "bob".

Definition w3 : World := run (followUserHandler aliceFollowsBob) w2.

Definition aliceRow : UserRow :=
  mkUserRow 1 "alice" "alice@x.com" "" "" (digestPrefix ++ salt 0 ++ "secret").

Definition bobRow : UserRow :=
  mkUserRow 2 "bob" "bob@x.com" "" "" (digestPrefix ++ salt 1 ++ "hunter2").

(** What registration answers alice with. *)
Definition registeredAlice : User :=
  mkUser 1 "alice" "alice@x.com" "" "" "" (digestPrefix ++ salt 0 ++ "secret")
         (Some (mkToken 1 1700086400000000000 "signature")) false.

(** Logins: an email nobody registered, and alice with a wrong password. *)
Definition loginNobody    : Request := mkRequest None "nobody@x.com;secret" "".
Definition loginAliceWrong : Request := mkRequest None "alice@x.com;wrong" "".

(** alice sets her bio and supplies no password. *)
Definition updateAliceBio : Request :=
  mkRequest (Some alice) "alice@x.com;alice;;likes tea;" "".

Definition aliceBioDraft : User :=
  mkUser 0 "alice" "alice@x.com" "likes tea" "" "" "" None false.

Definition updatedAlice : User :=
  mkUser 1 "alice" "alice@x.com" "likes tea" "" "" (digestPrefix ++ salt 2) None false.

Definition w2u : World := run (updateUserHandler updateAliceBio) w2.

(** A request whose body is one byte over the limit. *)
Definition bigRequest : Request := mkRequest None bigBody "".

(** A signer whose key is missing. *)
Definition brokenSigner : TokenSigner :=
  {| signToken := fun _ _ => Err (ErrSign "no signing key") |}.

(** A body without the [user] field. *)
Definition emptyRequest : Request := mkRequest None "" "".

(** carol registers; once with a fine password, once with one of 73 bytes. *)
Definition registerCarol : Request := mkRequest None "carol@x.com;carol;pw;;" "".

Definition carolDraft : User :=
  mkUser 0 "carol" "carol@x.com" "" "" "pw" "" None false.

Definition longPassword : string :=
  List.fold_right String EmptyString (List.repeat "p"%char 73).

Definition registerCarolLong : Request :=
  mkRequest None ("carol@x.com;carol;" ++ longPassword ++ ";;") "".

Definition carolLongDraft : User :=
  mkUser 0 "carol" "carol@x.com" "" "" longPassword "" None false.

Definition loginCarol : Request := mkRequest None "carol@x.com;pw" "".

Definition loginAlice : Request := mkRequest None "alice@x.com;secret" "".

(** alice looks at herself, and at somebody who is not there. *)
Definition aliceFollowsAlice  : Request := mkRequest (Some alice) "" "alice".
Definition aliceFollowsNobody : Request := mkRequest (Some alice) "" "nobody".

(** bob, as the authentication step loads him. *)
Definition bob : User :=
  mkUser 2 "bob" "bob@x.com" "" "" "" (digestPrefix ++ salt 1 ++ "hunter2") None false.

(** carol's registration after alice's and bob's, and its answer. *)
Definition w2c : World := run (createUserHandler registerCarol) w2.

Definition registeredCarol : User :=
  mkUser 3 "carol" "carol@x.com" "" "" "" (digestPrefix ++ salt 2 ++ "pw")
         (Some (mkToken 3 1700086400000000000 "signature")) false.

Definition bobProfile : Profile := mkProfile "bob" "" "" true.

(** The world after alice logged in on [w2]. *)
Definition w2login : World := run (loginUserHandler loginAlice) w2.







(** Five seconds after carol's registration: the tables are as it left them,
    the clock and the entropy have moved on. *)
Definition w2cLater : World :=
  mkWorld (users w2c) (follow_users w2c) (next_id w2c)
          (now w2c + 5 * Second) (entropy w2c + 7) (trace w2c).

End Sample.

(** The number of edges the follow table holds for the ordered pair
    (follower, followed). *)
Definition edgeCount (follower followed : Z) (fus : list FollowUser) : nat :=
  List.length (filter (FollowUser_eqb (mkFollowUser follower followed)) fus).

(** The rows of the user table a key selects. *)
Definition rowsOf (id : Z) (rows : list UserRow) : list UserRow :=
  filter (fun r => Z.eqb (row_id r) id) rows.

(** [currentUserHandler]: the user the context holds (nil when there is
    none) goes to [treemux.JSON] as it is. *)
Definition currentUserHandler (req : Request) : M (option User) :=
  ret (ctxUser req).

(** The world after [hashPassword pass]: one draw of entropy, one call. *)
Definition hashed (pass : string) (w : World) : World :=
  log (EvGenerateFromPassword pass) (set_entropy (N.succ (entropy w)) w).

(** * Properties *)

(** ** Stepping through a handler *)

Lemma bind_Ok_inv {A B : Type} (m : M A) (k : A -> M B) (w w' : World) (b : B) :
  bind m k w = (Ok b, w') ->
  exists a w1, m w = (Ok a, w1) /\ k a w1 = (Ok b, w').
Proof.
  unfold bind. destruct (m w) as [[a | e] w1]; intros H.
  - exists a, w1. split; [reflexivity | exact H].
  - discriminate H.
Qed.

Lemma bind_Ok_step {A B : Type} (m : M A) (k : A -> M B) (w w1 : World) (a : A) :
  m w = (Ok a, w1) -> bind m k w = k a w1.
Proof. intros H. unfold bind. rewrite H. reflexivity. Qed.

Lemma bind_Err_step {A B : Type} (m : M A) (k : A -> M B) (w w1 : World) (e : error) :
  m w = (Err e, w1) -> bind m k w = (Err e, w1).
Proof. intros H. unfold bind. rewrite H. reflexivity. Qed.

Lemma find_none_iff {A : Type} (f : A -> bool) (l : list A) :
  find f l = None <-> forall x, In x l -> f x = false.
Proof.
  split.
  - apply find_none.
  - induction l as [| a l IH]; intros H; simpl; [reflexivity |].
    rewrite (H a (or_introl eq_refl)). apply IH.
    intros x Hx. apply H. right. exact Hx.
Qed.

Lemma FollowUser_eqb_eq (a b : FollowUser) :
  FollowUser_eqb a b = true <-> a = b.
Proof.
  unfold FollowUser_eqb. rewrite andb_true_iff, !Z.eqb_eq.
  destruct a, b; simpl. split.
  - intros [-> ->]. reflexivity.
  - intros H. injection H as -> ->. split; reflexivity.
Qed.

Lemma existsb_FollowUser_In (fu : FollowUser) (l : list FollowUser) :
  existsb (FollowUser_eqb fu) l = true <-> In fu l.
Proof.
  rewrite existsb_exists. split.
  - intros [x [Hx Heq]]. apply FollowUser_eqb_eq in Heq. subst. exact Hx.
  - intros H. exists fu. split; [exact H | apply FollowUser_eqb_eq; reflexivity].
Qed.

Section Properties.

Context {bcrypt : Bcrypt} {signer : TokenSigner} {httputil : Httputil}.

(** *** Password verification *)

Lemma comparePasswords_result (hash pass : string) (w : World) :
  comparePasswords hash pass w =
  (match CompareHashAndPassword hash pass with
   | Some _ => Err errUserNotFound
   | None => Ok tt
   end, log (EvCompareHashAndPassword hash pass) w).
Proof.
  unfold comparePasswords.
  destruct (CompareHashAndPassword hash pass); reflexivity.
Qed.

(** C4 (as amended): [comparePasswords] returns no boolean.  It returns nil
    exactly when bcrypt accepts the password, and the one error
    [errUserNotFound] for every bcrypt failure: for a well-formed digest with
    a non-matching password just as for a malformed digest. *)
Theorem comparePasswords_one_error (hash pass : string) (w : World) :
  (CompareHashAndPassword hash pass = None <->
   fst (comparePasswords hash pass w) = Ok tt)
  /\ (CompareHashAndPassword hash pass = Some ErrMismatchedHashAndPassword ->
      fst (comparePasswords hash pass w) = Err errUserNotFound)
  /\ (forall e, CompareHashAndPassword hash pass = Some e ->
      malformed_digest e = true ->
      fst (comparePasswords hash pass w) = Err errUserNotFound).
Proof.
  rewrite comparePasswords_result. simpl.
  destruct (CompareHashAndPassword hash pass) as [e |] eqn:E.
  - split; [| split].
    + split; intros H; discriminate H.
    + intros _. reflexivity.
    + intros e' _ _. reflexivity.
  - split; [| split].
    + split; intros _; reflexivity.
    + intros H; discriminate H.
    + intros e' H; discriminate H.
Qed.

(** *** Login *)

Lemma SelectUserWhereEmail_unknown (email : string) (dst : User) (w : World) :
  (forall r, In r (users w) -> row_email r <> email) ->
  SelectUserWhereEmail email dst w = (Err ErrNoRows, log EvSelect w).
Proof.
  intros Hno. unfold SelectUserWhereEmail.
  replace (find (fun r => String.eqb (row_email r) email) (users w)) with (@None UserRow).
  - reflexivity.
  - symmetry. apply find_none_iff. intros r Hr.
    apply String.eqb_neq. apply Hno. exact Hr.
Qed.

(** C1 (the code departs from the claim): a login for an email no row holds
    returns the store's [pg.ErrNoRows], which is not the error
    [errUserNotFound] a wrong password yields. *)
Theorem login_unknown_email_returns_ErrNoRows
    (req : Request) (creds : Credentials) (w : World) :
  UnmarshalJSON DstCredentials req (Z.shiftl 10 kb) = Ok (Some creds) ->
  (forall r, In r (users w) -> row_email r <> credEmail creds) ->
  fst (loginUserHandler req w) = Err ErrNoRows
  /\ ErrNoRows <> errUserNotFound.
Proof.
  intros Hdec Hno. split; [| discriminate].
  unfold loginUserHandler.
  rewrite (bind_Ok_step _ _ w w (Some creds)) by (unfold liftR; rewrite Hdec; reflexivity).
  rewrite (bind_Err_step _ _ _ _ _ (SelectUserWhereEmail_unknown _ newUser w Hno)).
  reflexivity.
Qed.

(** X17, the sibling path: a registered email with a password bcrypt rejects
    yields [errUserNotFound]. *)
Lemma login_wrong_password_returns_errUserNotFound
    (req : Request) (creds : Credentials) (w : World) (r : UserRow) (e : bcrypt_error) :
  UnmarshalJSON DstCredentials req (Z.shiftl 10 kb) = Ok (Some creds) ->
  find (fun r => String.eqb (row_email r) (credEmail creds)) (users w) = Some r ->
  CompareHashAndPassword (row_password_hash r) (credPassword creds) = Some e ->
  fst (loginUserHandler req w) = Err errUserNotFound.
Proof.
  intros Hdec Hfind Hcmp. unfold loginUserHandler.
  rewrite (bind_Ok_step _ _ w w (Some creds)) by (unfold liftR; rewrite Hdec; reflexivity).
  rewrite (bind_Ok_step _ _ w (log EvSelect w) (scanRow r newUser))
    by (unfold SelectUserWhereEmail; rewrite Hfind; reflexivity).
  unfold bind at 1. rewrite comparePasswords_result. simpl.
  rewrite Hcmp. reflexivity.
Qed.

(** *** The body limit *)

Lemma body_limit : Z.shiftl 10 kb = 10240.
Proof. reflexivity. Qed.

(** *** Profile update *)

Lemma rowsOf_update_other (upd : UserRow -> UserRow) (id Y : Z) (rows : list UserRow) :
  (forall r, row_id (upd r) = row_id r) ->
  Y <> id ->
  rowsOf Y (map (fun r => if Z.eqb (row_id r) id then upd r else r) rows) = rowsOf Y rows.
Proof.
  intros Hid Hne. unfold rowsOf.
  induction rows as [| r rows IH]; simpl; [reflexivity |].
  rewrite IH. destruct (Z.eqb (row_id r) id) eqn:Hhit.
  - rewrite Hid. apply Z.eqb_eq in Hhit.
    destruct (Z.eqb (row_id r) Y) eqn:HY; [| reflexivity].
    apply Z.eqb_eq in HY. congruence.
  - reflexivity.
Qed.

Lemma rowsOf_update_hit (upd : UserRow -> UserRow) (id : Z) (rows : list UserRow) :
  (forall r, row_id (upd r) = row_id r) ->
  rowsOf id (map (fun r => if Z.eqb (row_id r) id then upd r else r) rows)
  = map upd (rowsOf id rows).
Proof.
  intros Hid. unfold rowsOf.
  induction rows as [| r rows IH]; simpl; [reflexivity |].
  destruct (Z.eqb (row_id r) id) eqn:Hhit.
  - rewrite Hid, Hhit. simpl. rewrite IH. reflexivity.
  - rewrite Hhit. exact IH.
Qed.

Lemma find_rowsOf (id : Z) (rows : list UserRow) (r : UserRow) :
  find (fun r => Z.eqb (row_id r) id) rows = Some r -> rowsOf id rows <> [].
Proof.
  intros Hfind Hnil. apply find_some in Hfind. destruct Hfind as [Hin Hid].
  assert (Hmem : In r (rowsOf id rows)) by (apply filter_In; split; assumption).
  rewrite Hnil in Hmem. exact Hmem.
Qed.

(** What the update statement does to the table. *)
Lemma UpdateUserWhereID_users
    (auth : User) (email username hash image bio : string) (id : Z) (w : World) :
  users (snd (UpdateUserWhereID auth email username hash image bio id w)) = users w
  \/ (exists a, fst (UpdateUserWhereID auth email username hash image bio id w) = Ok a)
     /\ users (snd (UpdateUserWhereID auth email username hash image bio id w))
        = map (fun r => if Z.eqb (row_id r) id
                        then setColumns email username hash image bio r else r)
              (users w).
Proof.
  unfold UpdateUserWhereID.
  destruct (find _ (users w)) as [r |]; [| left; reflexivity].
  destruct (existsb _ (users w)); [left; reflexivity |].
  destruct (existsb _ (users w)); [left; reflexivity |].
  right. split; [eexists; reflexivity | reflexivity].
Qed.

(** The update handler on a decoded draft, for an authenticated caller: one
    digest, then the statement. *)
Lemma updateUserHandler_run (req : Request) (user auth : User) (w : World) :
  UnmarshalJSON DstUser req (Z.shiftl 10 kb) = Ok (Some user) ->
  ctxUser req = Some auth ->
  updateUserHandler req w =
  let w1 := log (EvGenerateFromPassword (Password user))
                (set_entropy (N.succ (entropy w)) w) in
  match GenerateFromPassword (entropy w) (Password user) DefaultCost with
  | inl e => (Err (ErrBcrypt e), w1)
  | inr hash =>
      match UpdateUserWhereID auth (Email user) (Username user) hash
                              (Image user) (Bio user) (ID auth) w1 with
      | (Ok a, w2) => (Ok (JSONUser a), w2)
      | (Err e, w2) => (Err e, w2)
      end
  end.
Proof.
  intros Hdec Hctx.
  unfold updateUserHandler, bind, liftR. rewrite Hdec, Hctx.
  unfold hashPassword.
  destruct (GenerateFromPassword (entropy w) (Password user) DefaultCost)
    as [e | hash]; [reflexivity |].
  cbn [deref ret set_PasswordHash PasswordHash Email Username Image Bio].
  destruct (UpdateUserWhereID _ _ _ _ _ _ _ _) as [[a | e] w2]; reflexivity.
Qed.

(** Without a decoded draft the handler returns before it hashes. *)
Lemma updateUserHandler_no_draft (req : Request) (w : World) :
  (forall user, UnmarshalJSON DstUser req (Z.shiftl 10 kb) <> Ok (Some user)) ->
  snd (updateUserHandler req w) = w.
Proof.
  intros Hno. unfold updateUserHandler, bind, liftR.
  destruct (UnmarshalJSON DstUser req (Z.shiftl 10 kb)) as [[user |] | e];
    [| reflexivity | reflexivity].
  exfalso. exact (Hno user eq_refl).
Qed.

(** C5: an update authenticated as user [X] changes no record of another
    user: for every id [Y] other than [X], the rows of [Y] are the same
    before and after, whatever the handler returns. *)
Theorem update_leaves_other_users_unchanged
    (req : Request) (auth : User) (w : World) (Y : Z) :
  ctxUser req = Some auth ->
  Y <> ID auth ->
  rowsOf Y (users (snd (updateUserHandler req w))) = rowsOf Y (users w).
Proof.
  intros Hctx Hne.
  destruct (UnmarshalJSON DstUser req (Z.shiftl 10 kb)) as [[user |] | e] eqn:Hdec.
  - rewrite (updateUserHandler_run req user auth w Hdec Hctx). cbv zeta.
    destruct (GenerateFromPassword _ _ _) as [e | hash]; [reflexivity |].
    match goal with
    | |- context [UpdateUserWhereID ?a ?e ?u ?h ?i ?b ?k ?w1] =>
        pose proof (UpdateUserWhereID_users a e u h i b k w1) as Hupd;
        destruct (UpdateUserWhereID a e u h i b k w1) as [[a' | e'] w2]
    end; cbn [fst snd] in *.
    + destruct Hupd as [-> | [_ ->]]; [reflexivity |].
      apply rowsOf_update_other; [reflexivity | exact Hne].
    + destruct Hupd as [-> | [[a' Ha'] _]]; [reflexivity | discriminate Ha'].
  - rewrite updateUserHandler_no_draft; [reflexivity |].
    intros user. rewrite Hdec. discriminate.
  - rewrite updateUserHandler_no_draft; [reflexivity |].
    intros user. rewrite Hdec. discriminate.
Qed.

(** C2 (as amended): every update that succeeds stores a fresh bcrypt digest
    of the request's password field as the authenticated user's
    [password_hash], whether or not a password was supplied (an absent
    password is the empty string); the response carries that digest too. *)
Theorem update_always_stores_a_new_digest
    (req : Request) (user auth : User) (w w' : World) (resp : Response) :
  UnmarshalJSON DstUser req (Z.shiftl 10 kb) = Ok (Some user) ->
  ctxUser req = Some auth ->
  updateUserHandler req w = (Ok resp, w') ->
  exists hash,
    GenerateFromPassword (entropy w) (Password user) DefaultCost = inr hash
    /\ rowsOf (ID auth) (users w') <> []
    /\ (forall r, In r (rowsOf (ID auth) (users w')) -> row_password_hash r = hash)
    /\ (exists a, resp = JSONUser a /\ PasswordHash a = hash).
Proof.
  intros Hdec Hctx.
  rewrite (updateUserHandler_run req user auth w Hdec Hctx). cbv zeta.
  destruct (GenerateFromPassword _ _ _) as [e | hash]; [discriminate |].
  unfold UpdateUserWhereID.
  destruct (find _ _) as [r |] eqn:Hfind; [| discriminate].
  destruct (existsb _ _); [discriminate |].
  destruct (existsb _ _); [discriminate |].
  cbn [users log set_entropy] in *.
  intros Hrun. injection Hrun as <- <-.
  exists hash. split; [reflexivity |].
  cbn [users set_users]. rewrite rowsOf_update_hit by reflexivity.
  split; [| split].
  - intros Hnil. apply map_eq_nil in Hnil. exact (find_rowsOf _ _ _ Hfind Hnil).
  - intros r' Hin. apply in_map_iff in Hin. destruct Hin as (r0 & <- & _). reflexivity.
  - eexists. split; reflexivity.
Qed.

(** *** Follow and unfollow *)

Lemma SelectUserByUsername_found (name : string) (w : World) (target : UserRow) :
  find (fun r => String.eqb (row_username r) name) (users w) = Some target ->
  SelectUserByUsername name w = (Ok (scanRow target newUser), log EvSelect w).
Proof. intros H. unfold SelectUserByUsername. rewrite H. reflexivity. Qed.

Lemma edgeCount_pos_iff (a b : Z) (fus : list FollowUser) :
  (0 < edgeCount a b fus)%nat <-> In (mkFollowUser a b) fus.
Proof.
  unfold edgeCount. induction fus as [| fu fus IH]; simpl.
  - split; [lia | intros []].
  - destruct (FollowUser_eqb (mkFollowUser a b) fu) eqn:E; simpl.
    + apply FollowUser_eqb_eq in E. split; [intros _; left; congruence | lia].
    + rewrite IH. split; [intros H; right; exact H |].
      intros [H | H]; [| exact H].
      subst fu. assert (FollowUser_eqb (mkFollowUser a b) (mkFollowUser a b) = true)
        by (apply FollowUser_eqb_eq; reflexivity). congruence.
Qed.

Lemma edgeCount_app (a b : Z) (l1 l2 : list FollowUser) :
  edgeCount a b (l1 ++ l2) = (edgeCount a b l1 + edgeCount a b l2)%nat.
Proof. unfold edgeCount. rewrite filter_app, length_app. reflexivity. Qed.

(** The follow handler for an authenticated caller and an existing target:
    the outcome is the insert's. *)
Lemma followUserHandler_run (req : Request) (auth : User) (target : UserRow) (w : World) :
  ctxUser req = Some auth ->
  find (fun r => String.eqb (row_username r) (ParamUsername req)) (users w) = Some target ->
  followUserHandler req w =
  let w1 := log EvInsert (log EvSelect w) in
  let edge := mkFollowUser (ID auth) (row_id target) in
  if existsb (FollowUser_eqb edge) (follow_users w)
  then (Err (ErrIntegrityViolation UniqueFollow), w1)
  else (Ok (JSONProfile (mkProfile (row_username target) (row_bio target)
                                   (row_image target) true)),
        set_follow_users (follow_users w ++ [edge]) w1).
Proof.
  intros Hctx Hfind. unfold followUserHandler.
  rewrite (bind_Ok_step _ _ _ _ _ (SelectUserByUsername_found _ _ _ Hfind)).
  rewrite Hctx. unfold bind, deref, ret, InsertFollowUser.
  cbn [scanRow ID follow_users log]. cbv zeta.
  destruct (existsb _ (follow_users w)); reflexivity.
Qed.

(** A follow that succeeds leaves exactly one edge for the pair. *)
Lemma follow_creates_one_edge
    (req : Request) (auth : User) (target : UserRow) (w w' : World) (resp : Response) :
  ctxUser req = Some auth ->
  find (fun r => String.eqb (row_username r) (ParamUsername req)) (users w) = Some target ->
  followUserHandler req w = (Ok resp, w') ->
  edgeCount (ID auth) (row_id target) (follow_users w') = 1%nat
  /\ users w' = users w.
Proof.
  intros Hctx Hfind. rewrite (followUserHandler_run req auth target w Hctx Hfind). cbv zeta.
  destruct (existsb _ (follow_users w)) eqn:Hex; [discriminate |].
  intros H. injection H as _ <-. cbn [follow_users users set_follow_users log].
  split; [| reflexivity].
  rewrite edgeCount_app.
  assert (Hzero : edgeCount (ID auth) (row_id target) (follow_users w) = 0%nat).
  { destruct (edgeCount (ID auth) (row_id target) (follow_users w)) eqn:Hc; [reflexivity |].
    assert (Hin : In (mkFollowUser (ID auth) (row_id target)) (follow_users w))
      by (apply edgeCount_pos_iff; lia).
    apply existsb_FollowUser_In in Hin. congruence. }
  rewrite Hzero. unfold edgeCount. simpl.
  replace (FollowUser_eqb _ _) with true; [reflexivity |].
  symmetry. apply FollowUser_eqb_eq. reflexivity.
Qed.

(** C3 (as amended): when the edge (A,B) is already there, a second follow
    fails with the store's unique-index violation, which the handler returns
    as it is (a storage error; the code has no [AlreadyFollowing]), and the
    follow table is unchanged, so the pair still has exactly one edge. *)
Theorem follow_again_returns_unique_violation
    (req : Request) (auth : User) (target : UserRow) (w : World) :
  ctxUser req = Some auth ->
  find (fun r => String.eqb (row_username r) (ParamUsername req)) (users w) = Some target ->
  edgeCount (ID auth) (row_id target) (follow_users w) = 1%nat ->
  exists e w',
    followUserHandler req w = (Err e, w')
    /\ e = ErrIntegrityViolation UniqueFollow
    /\ is_storage_error e = true
    /\ follow_users w' = follow_users w
    /\ edgeCount (ID auth) (row_id target) (follow_users w') = 1%nat.
Proof.
  intros Hctx Hfind Hone.
  rewrite (followUserHandler_run req auth target w Hctx Hfind). cbv zeta.
  assert (Hin : In (mkFollowUser (ID auth) (row_id target)) (follow_users w))
    by (apply edgeCount_pos_iff; lia).
  apply existsb_FollowUser_In in Hin. rewrite Hin.
  eexists. eexists. split; [reflexivity |].
  repeat split. exact Hone.
Qed.

Lemma unfollowUserHandler_run (req : Request) (auth : User) (target : UserRow) (w : World) :
  ctxUser req = Some auth ->
  find (fun r => String.eqb (row_username r) (ParamUsername req)) (users w) = Some target ->
  unfollowUserHandler req w =
  (Ok (JSONProfile (mkProfile (row_username target) (row_bio target)
                              (row_image target) false)),
   set_follow_users
     (filter (fun fu => negb (FollowUser_eqb (mkFollowUser (ID auth) (row_id target)) fu))
             (follow_users w))
     (log EvDelete (log EvSelect w))).
Proof.
  intros Hctx Hfind. unfold unfollowUserHandler.
  rewrite (bind_Ok_step _ _ _ _ _ (SelectUserByUsername_found _ _ _ Hfind)).
  rewrite Hctx. reflexivity.
Qed.

Lemma filter_idem {A : Type} (f : A -> bool) (l : list A) :
  filter f (filter f l) = filter f l.
Proof.
  induction l as [| a l IH]; simpl; [reflexivity |].
  destruct (f a) eqn:E; simpl; [rewrite E, IH; reflexivity | exact IH].
Qed.

(** C7: for an authenticated caller A and an existing user B, unfollow
    returns a profile (no error) whether or not the edge (A,B) is there: the
    handler issues its select and then the delete in either case.  The edge
    is absent afterwards and every other edge is kept; a second unfollow
    returns the same profile and leaves both tables as the first left them. *)
Theorem unfollow_succeeds_and_is_idempotent
    (req : Request) (auth : User) (target : UserRow) (w : World) :
  ctxUser req = Some auth ->
  find (fun r => String.eqb (row_username r) (ParamUsername req)) (users w) = Some target ->
  exists p w1 w2,
    unfollowUserHandler req w = (Ok (JSONProfile p), w1)
    /\ profFollowing p = false
    /\ ~ In (mkFollowUser (ID auth) (row_id target)) (follow_users w1)
    /\ (forall fu, fu <> mkFollowUser (ID auth) (row_id target) ->
        (In fu (follow_users w1) <-> In fu (follow_users w)))
    /\ users w1 = users w
    /\ trace w1 = (trace w ++ [EvSelect; EvDelete])%list
    /\ unfollowUserHandler req w1 = (Ok (JSONProfile p), w2)
    /\ follow_users w2 = follow_users w1
    /\ users w2 = users w1.
Proof.
  intros Hctx Hfind.
  rewrite (unfollowUserHandler_run req auth target w Hctx Hfind).
  eexists. eexists. eexists.
  split; [reflexivity |]. split; [reflexivity |].
  cbn [follow_users users set_follow_users log].
  split; [| split; [| split; [reflexivity |]]].
  3: split; [cbn [trace log set_follow_users]; rewrite <- app_assoc; reflexivity |].
  - intros Hin. apply filter_In in Hin. destruct Hin as [_ Hneg].
    apply negb_true_iff in Hneg.
    assert (FollowUser_eqb (mkFollowUser (ID auth) (row_id target))
                           (mkFollowUser (ID auth) (row_id target)) = true)
      by (apply FollowUser_eqb_eq; reflexivity).
    congruence.
  - intros fu Hne. rewrite filter_In. split; [intros [H _]; exact H |].
    intros H. split; [exact H |]. apply negb_true_iff.
    destruct (FollowUser_eqb _ fu) eqn:E; [| reflexivity].
    apply FollowUser_eqb_eq in E. congruence.
  - rewrite unfollowUserHandler_run with (auth := auth) (target := target);
      [| exact Hctx | exact Hfind].
    cbn [follow_users users set_follow_users log].
    rewrite filter_idem.
    split; [reflexivity |]. split; reflexivity.
Qed.

(** *** Profile view *)

Lemma evalColumn_ExistsFollowing (viewer : Z) (fus : list FollowUser) (u : UserRow) :
  evalColumn (ExistsFollowing viewer) fus u = true
  <-> In (mkFollowUser viewer (row_id u)) fus.
Proof.
  unfold evalColumn. rewrite existsb_exists. split.
  - intros [fu [Hin Heq]]. apply andb_true_iff in Heq. destruct Heq as [H1 H2].
    apply Z.eqb_eq in H1. apply Z.eqb_eq in H2.
    destruct fu as [a b]. simpl in *. subst. exact Hin.
  - intros Hin. exists (mkFollowUser viewer (row_id u)). split; [exact Hin |].
    simpl. rewrite !Z.eqb_refl. reflexivity.
Qed.

(** C6: the profile of an existing user has [following = false] when the
    request carries no viewer, whatever the follow table holds; with a viewer
    in the context, [following] is true exactly when the edge
    (viewer, target) is in the follow table. *)
Theorem profile_following_flag (req : Request) (target : UserRow) (w : World) :
  find (fun r => String.eqb (row_username r) (ParamUsername req)) (users w) = Some target ->
  exists p,
    fst (profileHandler req w) = Ok (JSONProfile p)
    /\ profUsername p = row_username target
    /\ match ctxUser req with
       | None => profFollowing p = false
       | Some viewer =>
           profFollowing p = true
           <-> In (mkFollowUser (ID viewer) (row_id target)) (follow_users w)
       end.
Proof.
  intros Hfind. unfold profileHandler, bind, SelectProfile. rewrite Hfind.
  eexists. split; [reflexivity |]. split; [reflexivity |].
  cbn [NewProfile set_Following Following profFollowing].
  destruct (ctxUser req) as [viewer |]; simpl followingColumn.
  - apply evalColumn_ExistsFollowing.
  - reflexivity.
Qed.

(** *** Tokens *)

Lemma setUserToken_Ok (user user' : User) (w w' : World) :
  setUserToken user w = (Ok user', w') ->
  exists sig,
    user' = set_Token (Some (mkToken (ID user) (now w + 24 * Hour) sig)) user
    /\ users w' = users w.
Proof.
  unfold setUserToken, bind, CreateUserToken, ret.
  destruct (signToken (ID user) (now w + 24 * Hour)) as [sig | e]; [| discriminate].
  intros H. injection H as <- <-. exists sig. split; reflexivity.
Qed.

(** Registration that succeeds: the draft with its digest, the key the store
    assigned, the token, and the password cleared. *)
Lemma createUserHandler_Ok (req : Request) (w w' : World) (resp : Response) :
  createUserHandler req w = (Ok resp, w') ->
  exists draft hash sig,
    UnmarshalJSON DstUser req (Z.shiftl 10 kb) = Ok (Some draft)
    /\ GenerateFromPassword (entropy w) (Password draft) DefaultCost = inr hash
    /\ resp = JSONUser
                (set_Password ""
                   (set_Token (Some (mkToken (next_id w) (now w + 24 * Hour) sig))
                      (set_ID (next_id w) (set_PasswordHash hash draft))))
    /\ users w' = (users w ++ [rowOf (set_ID (next_id w) (set_PasswordHash hash draft))])%list.
Proof.
  unfold createUserHandler. intros H.
  apply bind_Ok_inv in H. destruct H as (in_ & w1 & Hdec & H).
  unfold liftR in Hdec. injection Hdec as Hdec <-.
  destruct in_ as [draft |]; [| discriminate H].
  apply bind_Ok_inv in H. destruct H as (hash & w2 & Hhash & H).
  apply bind_Ok_inv in H. destruct H as (u1 & w3 & Hins & H).
  apply bind_Ok_inv in H. destruct H as (u2 & w4 & Htok & H).
  unfold ret in H. injection H as <- <-.
  unfold hashPassword in Hhash.
  destruct (GenerateFromPassword (entropy w) (Password draft) DefaultCost)
    as [e | h] eqn:Hgen; [discriminate |].
  injection Hhash as <- <-.
  unfold InsertUser in Hins. cbn [users log set_entropy next_id] in Hins.
  destruct (existsb _ (users w)); [discriminate |].
  destruct (existsb _ (users w)); [discriminate |].
  injection Hins as <- <-.
  apply setUserToken_Ok in Htok. destruct Htok as (sig & -> & Hus).
  exists draft, h, sig.
  split; [exact Hdec |]. split; [exact Hgen |].
  split; [reflexivity |]. rewrite Hus. reflexivity.
Qed.

(** Login that succeeds: the row the email selects, scanned into a fresh
    [User], with the token. *)
Lemma loginUserHandler_Ok (req : Request) (w w' : World) (resp : Response) :
  loginUserHandler req w = (Ok resp, w') ->
  exists creds r sig,
    UnmarshalJSON DstCredentials req (Z.shiftl 10 kb) = Ok (Some creds)
    /\ find (fun r => String.eqb (row_email r) (credEmail creds)) (users w) = Some r
    /\ CompareHashAndPassword (row_password_hash r) (credPassword creds) = None
    /\ resp = JSONUser
                (set_Token (Some (mkToken (row_id r) (now w + 24 * Hour) sig))
                           (scanRow r newUser))
    /\ users w' = users w.
Proof.
  unfold loginUserHandler. intros H.
  apply bind_Ok_inv in H. destruct H as (in_ & w1 & Hdec & H).
  unfold liftR in Hdec. injection Hdec as Hdec <-.
  destruct in_ as [creds |]; [| discriminate H].
  apply bind_Ok_inv in H. destruct H as (u1 & w2 & Hsel & H).
  apply bind_Ok_inv in H. destruct H as ([] & w3 & Hcmp & H).
  apply bind_Ok_inv in H. destruct H as (u2 & w4 & Htok & H).
  unfold ret in H. injection H as <- <-.
  unfold SelectUserWhereEmail in Hsel.
  destruct (find _ (users w)) as [r |] eqn:Hfind; [| discriminate].
  injection Hsel as <- <-.
  rewrite comparePasswords_result in Hcmp. cbn [scanRow PasswordHash] in Hcmp.
  destruct (CompareHashAndPassword (row_password_hash r) (credPassword creds))
    eqn:Hbc; [discriminate |].
  injection Hcmp as <-.
  apply setUserToken_Ok in Htok. destruct Htok as (sig & -> & Hus).
  exists creds, r, sig.
  split; [exact Hdec |]. split; [exact Hfind |]. split; [exact Hbc |].
  split; [reflexivity |]. rewrite Hus. reflexivity.
Qed.

(** C8: the token in the response of every successful registration or login
    embeds the id of the user the request authenticates and expires 24 hours
    after the request's instant; the time-to-live is the constant
    [24*time.Hour], whatever the request holds.  For a registration that user
    is the draft of the request, stored under the key the store assigned; for
    a login it is the row the credentials' email selects, against whose
    digest bcrypt accepted the credentials' password. *)
Theorem minted_token_embeds_user_id_with_24h_ttl
    (req : Request) (w w' : World) (resp : Response) :
  (createUserHandler req w = (Ok resp, w') ->
   exists draft hash user token,
     UnmarshalJSON DstUser req (Z.shiftl 10 kb) = Ok (Some draft)
     /\ resp = JSONUser user
     /\ Username user = Username draft
     /\ Email user = Email draft
     /\ ID user = next_id w
     /\ users w' = (users w ++ [mkUserRow (ID user) (Username draft) (Email draft)
                                          (Bio draft) (Image draft) hash])%list
     /\ Token user = Some token
     /\ tokUserID token = ID user
     /\ tokExpiresAt token = now w + 24 * 60 * 60 * 1000000000)
  /\ (loginUserHandler req w = (Ok resp, w') ->
      exists creds r user token,
        UnmarshalJSON DstCredentials req (Z.shiftl 10 kb) = Ok (Some creds)
        /\ find (fun r => String.eqb (row_email r) (credEmail creds)) (users w) = Some r
        /\ CompareHashAndPassword (row_password_hash r) (credPassword creds) = None
        /\ resp = JSONUser user
        /\ ID user = row_id r
        /\ Username user = row_username r
        /\ Email user = credEmail creds
        /\ Token user = Some token
        /\ tokUserID token = row_id r
        /\ tokExpiresAt token = now w + 24 * 60 * 60 * 1000000000).
Proof.
  split; intros H.
  - apply createUserHandler_Ok in H.
    destruct H as (draft & hash & sig & Hdec & _ & -> & Hus).
    exists draft, hash. eexists. eexists.
    split; [exact Hdec |]. split; [reflexivity |].
    split; [reflexivity |]. split; [reflexivity |]. split; [reflexivity |].
    split; [exact Hus |]. split; [reflexivity |]. split; reflexivity.
  - apply loginUserHandler_Ok in H.
    destruct H as (creds & r & sig & Hdec & Hfind & Hcmp & -> & _).
    exists creds, r. eexists. eexists.
    split; [exact Hdec |]. split; [exact Hfind |]. split; [exact Hcmp |].
    split; [reflexivity |]. split; [reflexivity |]. split; [reflexivity |].
    split; [| split; [reflexivity |]; split; reflexivity].
    apply find_some in Hfind. destruct Hfind as [_ Heq].
    apply String.eqb_eq in Heq. exact Heq.
Qed.

(** *** The plaintext password *)

(** A user the authentication step loaded carries no plaintext password:
    the user table has no such column. *)
Lemma currentUser_no_password (token : SessionToken) (w w' : World) (auth : User) :
  currentUser token w = (Ok auth, w') -> Password auth = "".
Proof.
  unfold currentUser, SelectUserWhereID.
  destruct (find _ (users w)) as [r |]; [| discriminate].
  intros H. injection H as <- _. reflexivity.
Qed.



End Properties.

(** ** The theorems at the sample instantiation *)

(** C1 at a concrete request: nobody@x.com is not registered; the login
    returns [ErrNoRows]. *)
Lemma login_unknown_email_witness :
  fst (loginUserHandler (bcrypt := Sample.bcrypt) (signer := Sample.signer)
         (httputil := Sample.httputil) Sample.loginNobody Sample.w2) = Err ErrNoRows
  /\ ErrNoRows <> errUserNotFound.
Proof.
  apply (login_unknown_email_returns_ErrNoRows
           (bcrypt := Sample.bcrypt) (signer := Sample.signer)
           (httputil := Sample.httputil)
           Sample.loginNobody (mkCredentials "nobody@x.com" "secret") Sample.w2).
  - vm_compute. reflexivity.
  - intros r Hr. vm_compute in Hr.
    destruct Hr as [<- | [<- | []]]; vm_compute; discriminate.
Defined.

(** alice's login with a wrong password returns the other error. *)
Lemma login_wrong_password_at_sample :
  fst (loginUserHandler (bcrypt := Sample.bcrypt) (signer := Sample.signer)
         (httputil := Sample.httputil) Sample.loginAliceWrong Sample.w2)
  = Err errUserNotFound.
Proof. vm_compute. reflexivity. Qed.

(** C2, the claim as stated fails: alice updates her bio and supplies no
    password; the update succeeds and her stored digest is no longer the one
    of her password but a digest of the empty string. *)
Lemma update_without_password_replaces_digest :
  UnmarshalJSON (Httputil := Sample.httputil) DstUser Sample.updateAliceBio (Z.shiftl 10 kb)
  = Ok (Some Sample.aliceBioDraft)
  /\ Password Sample.aliceBioDraft = ""
  /\ updateUserHandler (bcrypt := Sample.bcrypt) (httputil := Sample.httputil)
       Sample.updateAliceBio Sample.w2
     = (Ok (JSONUser Sample.updatedAlice), Sample.w2u)
  /\ map row_password_hash (rowsOf 1 (users Sample.w2))
     = ["$2a$10$AAAAAAAAAAAAAAAAAAAAAAsecret"]
  /\ map row_password_hash (rowsOf 1 (users Sample.w2u))
     = ["$2a$10$CCCCCCCCCCCCCCCCCCCCCC"]
  /\ map row_password_hash (rowsOf 1 (users Sample.w2u))
     <> map row_password_hash (rowsOf 1 (users Sample.w2)).
Proof.
  repeat split; try (vm_compute; reflexivity).
  vm_compute. discriminate.
Qed.

(** C2 as amended, at the same request. *)
Lemma update_always_stores_a_new_digest_witness :
  exists hash,
    GenerateFromPassword (Bcrypt := Sample.bcrypt)
      (entropy Sample.w2) (Password Sample.aliceBioDraft) DefaultCost = inr hash
    /\ rowsOf (ID Sample.alice) (users Sample.w2u) <> []
    /\ (forall r, In r (rowsOf (ID Sample.alice) (users Sample.w2u)) ->
        row_password_hash r = hash)
    /\ (exists a, JSONUser Sample.updatedAlice = JSONUser a /\ PasswordHash a = hash).
Proof.
  apply (update_always_stores_a_new_digest
           (bcrypt := Sample.bcrypt) (httputil := Sample.httputil)
           Sample.updateAliceBio Sample.aliceBioDraft Sample.alice
           Sample.w2 Sample.w2u (JSONUser Sample.updatedAlice));
    vm_compute; reflexivity.
Defined.

(** C3, the claim as stated fails: alice follows bob a second time; the
    handler returns the store's unique-index violation, a storage error. *)
Lemma second_follow_returns_storage_error :
  In (mkFollowUser 1 2) (follow_users Sample.w3)
  /\ fst (followUserHandler Sample.aliceFollowsBob Sample.w3)
     = Err (ErrIntegrityViolation UniqueFollow)
  /\ is_storage_error (ErrIntegrityViolation UniqueFollow) = true.
Proof.
  split; [vm_compute; left; reflexivity |].
  split; vm_compute; reflexivity.
Qed.

(** C3 as amended, at the same request. *)
Lemma follow_again_returns_unique_violation_witness :
  exists e w',
    followUserHandler Sample.aliceFollowsBob Sample.w3 = (Err e, w')
    /\ e = ErrIntegrityViolation UniqueFollow
    /\ is_storage_error e = true
    /\ follow_users w' = follow_users Sample.w3
    /\ edgeCount (ID Sample.alice) (row_id Sample.bobRow) (follow_users w') = 1%nat.
Proof.
  apply (follow_again_returns_unique_violation
           Sample.aliceFollowsBob Sample.alice Sample.bobRow Sample.w3);
    vm_compute; reflexivity.
Defined.

(** C4, the claim as stated fails: against alice's well-formed digest the
    password [wrong] is a mismatch for bcrypt, and [comparePasswords] returns
    an error for it, the same error it returns for a malformed digest. *)
Lemma wrong_password_against_wellformed_digest_is_an_error :
  CompareHashAndPassword (Bcrypt := Sample.bcrypt)
    "$2a$10$AAAAAAAAAAAAAAAAAAAAAAsecret" "wrong" = Some ErrMismatchedHashAndPassword
  /\ malformed_digest ErrMismatchedHashAndPassword = false
  /\ fst (comparePasswords (bcrypt := Sample.bcrypt)
            "$2a$10$AAAAAAAAAAAAAAAAAAAAAAsecret" "wrong" Sample.w2)
     = Err errUserNotFound
  /\ fst (comparePasswords (bcrypt := Sample.bcrypt) "not a digest" "wrong" Sample.w2)
     = Err errUserNotFound.
Proof. repeat split; vm_compute; reflexivity. Qed.

(** C5 at a concrete request: alice's update leaves bob's row alone. *)
Lemma update_leaves_other_users_unchanged_witness :
  rowsOf 2 (users (snd (updateUserHandler (bcrypt := Sample.bcrypt)
                          (httputil := Sample.httputil) Sample.updateAliceBio Sample.w2)))
  = rowsOf 2 (users Sample.w2).
Proof.
  apply (update_leaves_other_users_unchanged
           (bcrypt := Sample.bcrypt) (httputil := Sample.httputil)
           Sample.updateAliceBio Sample.alice Sample.w2 2).
  - reflexivity.
  - vm_compute. discriminate.
Defined.

(** C6 at a concrete request: alice views bob after following him. *)
Lemma profile_following_flag_witness :
  exists p,
    fst (profileHandler Sample.aliceFollowsBob Sample.w3) = Ok (JSONProfile p)
    /\ profUsername p = row_username Sample.bobRow
    /\ match ctxUser Sample.aliceFollowsBob with
       | None => profFollowing p = false
       | Some viewer =>
           profFollowing p = true
           <-> In (mkFollowUser (ID viewer) (row_id Sample.bobRow))
                  (follow_users Sample.w3)
       end.
Proof.
  apply (profile_following_flag Sample.aliceFollowsBob Sample.bobRow Sample.w3).
  vm_compute. reflexivity.
Defined.

(** C7 at a concrete request: alice unfollows bob, twice. *)
Lemma unfollow_succeeds_and_is_idempotent_witness :
  exists p w1 w2,
    unfollowUserHandler Sample.aliceFollowsBob Sample.w3 = (Ok (JSONProfile p), w1)
    /\ profFollowing p = false
    /\ ~ In (mkFollowUser (ID Sample.alice) (row_id Sample.bobRow)) (follow_users w1)
    /\ (forall fu, fu <> mkFollowUser (ID Sample.alice) (row_id Sample.bobRow) ->
        (In fu (follow_users w1) <-> In fu (follow_users Sample.w3)))
    /\ users w1 = users Sample.w3
    /\ trace w1 = (trace Sample.w3 ++ [EvSelect; EvDelete])%list
    /\ unfollowUserHandler Sample.aliceFollowsBob w1 = (Ok (JSONProfile p), w2)
    /\ follow_users w2 = follow_users w1
    /\ users w2 = users w1.
Proof.
  apply (unfollow_succeeds_and_is_idempotent
           Sample.aliceFollowsBob Sample.alice Sample.bobRow Sample.w3);
    vm_compute; reflexivity.
Defined.

(** C8 at concrete requests: carol's registration, and alice's login. *)
Lemma minted_token_witness :
  (exists draft hash user token,
     UnmarshalJSON (Httputil := Sample.httputil) DstUser Sample.registerCarol
       (Z.shiftl 10 kb) = Ok (Some draft)
     /\ JSONUser Sample.registeredCarol = JSONUser user
     /\ Username user = Username draft
     /\ Email user = Email draft
     /\ ID user = next_id Sample.w2
     /\ users Sample.w2c
        = (users Sample.w2 ++ [mkUserRow (ID user) (Username draft) (Email draft)
                                 (Bio draft) (Image draft) hash])%list
     /\ Token user = Some token
     /\ tokUserID token = ID user
     /\ tokExpiresAt token = now Sample.w2 + 24 * 60 * 60 * 1000000000)
  /\ (exists creds r user token,
        UnmarshalJSON (Httputil := Sample.httputil) DstCredentials Sample.loginAlice
          (Z.shiftl 10 kb) = Ok (Some creds)
        /\ find (fun r => String.eqb (row_email r) (credEmail creds)) (users Sample.w2)
           = Some r
        /\ CompareHashAndPassword (Bcrypt := Sample.bcrypt)
             (row_password_hash r) (credPassword creds) = None
        /\ JSONUser Sample.registeredAlice = JSONUser user
        /\ ID user = row_id r
        /\ Username user = row_username r
        /\ Email user = credEmail creds
        /\ Token user = Some token
        /\ tokUserID token = row_id r
        /\ tokExpiresAt token = now Sample.w2 + 24 * 60 * 60 * 1000000000).
Proof.
  split.
  - apply (proj1 (minted_token_embeds_user_id_with_24h_ttl
                    (bcrypt := Sample.bcrypt) (signer := Sample.signer)
                    (httputil := Sample.httputil)
                    Sample.registerCarol Sample.w2 Sample.w2c
                    (JSONUser Sample.registeredCarol))).
    vm_compute. reflexivity.
  - apply (proj2 (minted_token_embeds_user_id_with_24h_ttl
                    (bcrypt := Sample.bcrypt) (signer := Sample.signer)
                    (httputil := Sample.httputil)
                    Sample.loginAlice Sample.w2 Sample.w2login
                    (JSONUser Sample.registeredAlice))).
    vm_compute. reflexivity.
Defined.



(** * Further properties of the handlers *)

Lemma existsb_false_find_none {A : Type} (f : A -> bool) (l : list A) :
  existsb f l = false -> find f l = None.
Proof.
  induction l as [| a l IH]; simpl; [reflexivity |].
  destruct (f a); simpl; [discriminate | exact IH].
Qed.

Lemma find_app_new {A : Type} (f : A -> bool) (l : list A) (a : A) :
  find f l = None -> f a = true -> find f (l ++ [a]) = Some a.
Proof.
  induction l as [| b l IH]; simpl; intros Hnone Ha.
  - rewrite Ha. reflexivity.
  - destruct (f b); [discriminate | apply IH; assumption].
Qed.

Section FurtherProperties.

Context {bcrypt : Bcrypt} {signer : TokenSigner} {httputil : Httputil}.

(** *** Registration *)

(** Registration on a decoded draft, step by step: the digest, the insert
    with its two unique indexes, the token, the answer. *)
Lemma createUserHandler_run (req : Request) (draft : User) (w : World) :
  UnmarshalJSON DstUser req (Z.shiftl 10 kb) = Ok (Some draft) ->
  createUserHandler req w =
  let w1 := hashed (Password draft) w in
  match GenerateFromPassword (entropy w) (Password draft) DefaultCost with
  | inl e => (Err (ErrBcrypt e), w1)
  | inr hash =>
      let w2 := log EvInsert w1 in
      if existsb (fun r => String.eqb (row_email r) (Email draft)) (users w) then
        (Err (ErrIntegrityViolation UniqueEmail), w2)
      else if existsb (fun r => String.eqb (row_username r) (Username draft)) (users w) then
        (Err (ErrIntegrityViolation UniqueUsername), w2)
      else
        let user := set_ID (next_id w) (set_PasswordHash hash draft) in
        let w3 := set_next_id (next_id w + 1)
                    (set_users (users w ++ [rowOf user]) w2) in
        let w4 := log (EvSignToken (next_id w)) w3 in
        match signToken (next_id w) (now w + 24 * Hour) with
        | Ok sig =>
            (Ok (JSONUser
                   (set_Password ""
                      (set_Token (Some (mkToken (next_id w) (now w + 24 * Hour) sig))
                                 user))), w4)
        | Err e => (Err e, w4)
        end
  end.
Proof.
  intros Hdec. unfold createUserHandler, bind, liftR. rewrite Hdec.
  unfold hashPassword, hashed. cbv zeta.
  destruct (GenerateFromPassword (entropy w) (Password draft) DefaultCost)
    as [e | hash]; [reflexivity |].
  unfold InsertUser.
  cbn [users log set_entropy next_id set_PasswordHash Email Username].
  destruct (existsb _ (users w)); [reflexivity |].
  destruct (existsb _ (users w)); [reflexivity |].
  unfold setUserToken, bind, CreateUserToken, ret.
  cbn [ID set_ID now set_next_id set_users log set_entropy].
  destruct (signToken (next_id w) (now w + 24 * Hour)); reflexivity.
Qed.

(** Without a decoded draft registration returns with the world as it was. *)
Lemma createUserHandler_no_draft (req : Request) (w : World) :
  (forall draft, UnmarshalJSON DstUser req (Z.shiftl 10 kb) <> Ok (Some draft)) ->
  snd (createUserHandler req w) = w /\ forall resp, fst (createUserHandler req w) <> Ok resp.
Proof.
  intros Hno. unfold createUserHandler, bind, liftR.
  destruct (UnmarshalJSON DstUser req (Z.shiftl 10 kb)) as [[draft |] | e].
  - exfalso. exact (Hno draft eq_refl).
  - split; [reflexivity | discriminate].
  - split; [reflexivity | discriminate].
Qed.

(** X1: a body that decodes without the [user] field makes registration,
    login and update return the "user is required" error at once, with the
    world untouched. *)
Theorem missing_user_field_is_rejected (req : Request) (w : World) :
  (UnmarshalJSON DstUser req (Z.shiftl 10 kb) = Ok None ->
   createUserHandler req w = (Err errUserRequired, w)
   /\ updateUserHandler req w = (Err errUserRequired, w))
  /\ (UnmarshalJSON DstCredentials req (Z.shiftl 10 kb) = Ok None ->
      loginUserHandler req w = (Err errUserRequired, w)).
Proof.
  split.
  - intros Hdec. unfold createUserHandler, updateUserHandler, bind, liftR.
    rewrite Hdec. split; reflexivity.
  - intros Hdec. unfold loginUserHandler, bind, liftR.
    rewrite Hdec. reflexivity.
Qed.

(** X2: when bcrypt refuses the draft's password, registration and update
    both return bcrypt's error after that one call: no statement reaches the
    store and both tables are as they were. *)
Theorem hashing_failure_stops_before_the_store
    (req : Request) (draft : User) (e : bcrypt_error) (w : World) :
  UnmarshalJSON DstUser req (Z.shiftl 10 kb) = Ok (Some draft) ->
  GenerateFromPassword (entropy w) (Password draft) DefaultCost = inl e ->
  createUserHandler req w = (Err (ErrBcrypt e), hashed (Password draft) w)
  /\ updateUserHandler req w = (Err (ErrBcrypt e), hashed (Password draft) w)
  /\ users (hashed (Password draft) w) = users w
  /\ follow_users (hashed (Password draft) w) = follow_users w
  /\ trace (hashed (Password draft) w)
     = (trace w ++ [EvGenerateFromPassword (Password draft)])%list.
Proof.
  intros Hdec Hgen. split; [| split; [| repeat split]].
  - rewrite (createUserHandler_run req draft w Hdec). cbv zeta.
    rewrite Hgen. reflexivity.
  - unfold updateUserHandler, bind, liftR. rewrite Hdec.
    unfold hashPassword. rewrite Hgen. reflexivity.
Qed.

(** X3: whatever registration returns, it leaves the follow table alone and
    every row of the user table in place; it appends at most one row, and
    exactly one when it succeeds. *)
Theorem registration_keeps_existing_rows (req : Request) (w : World) :
  follow_users (snd (createUserHandler req w)) = follow_users w
  /\ exists added,
       users (snd (createUserHandler req w)) = (users w ++ added)%list
       /\ (List.length added <= 1)%nat
       /\ (forall resp, fst (createUserHandler req w) = Ok resp ->
           List.length added = 1%nat).
Proof.
  destruct (UnmarshalJSON DstUser req (Z.shiftl 10 kb)) as [[draft |] | e] eqn:Hdec.
  - rewrite (createUserHandler_run req draft w Hdec). cbv zeta.
    destruct (GenerateFromPassword _ _ _) as [e | hash].
    { split; [reflexivity |]. exists []. rewrite app_nil_r.
      split; [reflexivity |]. split; [simpl; lia | discriminate]. }
    destruct (existsb _ (users w)).
    { split; [reflexivity |]. exists []. rewrite app_nil_r.
      split; [reflexivity |]. split; [simpl; lia | discriminate]. }
    destruct (existsb _ (users w)).
    { split; [reflexivity |]. exists []. rewrite app_nil_r.
      split; [reflexivity |]. split; [simpl; lia | discriminate]. }
    destruct (signToken _ _);
      (split; [reflexivity |]; eexists; split; [reflexivity |];
       split; [simpl; lia | intros; reflexivity]).
  - destruct (createUserHandler_no_draft req w) as [Hw Hno];
      [intros d; rewrite Hdec; discriminate |].
    rewrite Hw. split; [reflexivity |]. exists []. rewrite app_nil_r.
    split; [reflexivity |]. split; [simpl; lia |].
    intros resp H. exfalso. exact (Hno resp H).
  - destruct (createUserHandler_no_draft req w) as [Hw Hno];
      [intros d; rewrite Hdec; discriminate |].
    rewrite Hw. split; [reflexivity |]. exists []. rewrite app_nil_r.
    split; [reflexivity |]. split; [simpl; lia |].
    intros resp H. exfalso. exact (Hno resp H).
Qed.

(** X4: registration does not undo its insert.  When the store accepts the
    row and the token cannot be signed, the handler returns the signer's
    error, and the new user is in the table all the same. *)
Theorem registration_keeps_the_row_when_signing_fails
    (req : Request) (draft : User) (hash : string) (e : error) (w : World) :
  UnmarshalJSON DstUser req (Z.shiftl 10 kb) = Ok (Some draft) ->
  GenerateFromPassword (entropy w) (Password draft) DefaultCost = inr hash ->
  (forall r, In r (users w) ->
     row_email r <> Email draft /\ row_username r <> Username draft) ->
  signToken (next_id w) (now w + 24 * Hour) = Err e ->
  fst (createUserHandler req w) = Err e
  /\ users (snd (createUserHandler req w))
     = (users w ++ [mkUserRow (next_id w) (Username draft) (Email draft)
                              (Bio draft) (Image draft) hash])%list.
Proof.
  intros Hdec Hgen Hfree Hsign.
  rewrite (createUserHandler_run req draft w Hdec). cbv zeta.
  rewrite Hgen.
  replace (existsb (fun r => String.eqb (row_email r) (Email draft)) (users w)) with false.
  2: { symmetry. apply not_true_is_false. intros H. apply existsb_exists in H.
       destruct H as (r & Hin & Heq). apply String.eqb_eq in Heq.
       exact (proj1 (Hfree r Hin) Heq). }
  replace (existsb (fun r => String.eqb (row_username r) (Username draft)) (users w)) with false.
  2: { symmetry. apply not_true_is_false. intros H. apply existsb_exists in H.
       destruct H as (r & Hin & Heq). apply String.eqb_eq in Heq.
       exact (proj2 (Hfree r Hin) Heq). }
  rewrite Hsign. split; reflexivity.
Qed.

(** X5: a registration that succeeds stores one new row holding the draft's
    username, email, bio and image and bcrypt's digest of its password, under
    the next key of the store; the answer carries that key and that digest. *)
Theorem registration_stores_the_draft_with_its_digest
    (req : Request) (w w' : World) (resp : Response) :
  createUserHandler req w = (Ok resp, w') ->
  exists draft hash user,
    UnmarshalJSON DstUser req (Z.shiftl 10 kb) = Ok (Some draft)
    /\ GenerateFromPassword (entropy w) (Password draft) DefaultCost = inr hash
    /\ users w' = (users w ++ [mkUserRow (next_id w) (Username draft) (Email draft)
                                         (Bio draft) (Image draft) hash])%list
    /\ next_id w' = next_id w + 1
    /\ resp = JSONUser user
    /\ ID user = next_id w
    /\ PasswordHash user = hash
    /\ Username user = Username draft
    /\ Email user = Email draft.
Proof.
  destruct (UnmarshalJSON DstUser req (Z.shiftl 10 kb)) as [[draft |] | e] eqn:Hdec.
  - rewrite (createUserHandler_run req draft w Hdec). cbv zeta.
    destruct (GenerateFromPassword _ _ _) as [e | hash] eqn:Hgen; [discriminate |].
    destruct (existsb _ (users w)); [discriminate |].
    destruct (existsb _ (users w)); [discriminate |].
    destruct (signToken _ _) as [sig | e]; [| discriminate].
    intros H. injection H as <- <-.
    exists draft, hash. eexists.
    split; [reflexivity |]. split; [exact Hgen |].
    split; [reflexivity |]. split; [reflexivity |].
    split; [reflexivity |]. repeat split.
  - intros H. destruct (createUserHandler_no_draft req w) as [_ Hno];
      [intros d; rewrite Hdec; discriminate |].
    exfalso. apply (Hno resp). rewrite H. reflexivity.
  - intros H. destruct (createUserHandler_no_draft req w) as [_ Hno];
      [intros d; rewrite Hdec; discriminate |].
    exfalso. apply (Hno resp). rewrite H. reflexivity.
Qed.

(** *** Login *)

(** Login on decoded credentials, step by step: the select by email, the
    comparison against the stored digest, the token. *)
Lemma loginUserHandler_run (req : Request) (creds : Credentials) (w : World) :
  UnmarshalJSON DstCredentials req (Z.shiftl 10 kb) = Ok (Some creds) ->
  loginUserHandler req w =
  let w1 := log EvSelect w in
  match find (fun r => String.eqb (row_email r) (credEmail creds)) (users w) with
  | None => (Err ErrNoRows, w1)
  | Some r =>
      let w2 := log (EvCompareHashAndPassword (row_password_hash r) (credPassword creds)) w1 in
      match CompareHashAndPassword (row_password_hash r) (credPassword creds) with
      | Some _ => (Err errUserNotFound, w2)
      | None =>
          let w3 := log (EvSignToken (row_id r)) w2 in
          match signToken (row_id r) (now w + 24 * Hour) with
          | Ok sig =>
              (Ok (JSONUser
                     (set_Token (Some (mkToken (row_id r) (now w + 24 * Hour) sig))
                                (scanRow r newUser))), w3)
          | Err e => (Err e, w3)
          end
      end
  end.
Proof.
  intros Hdec. unfold loginUserHandler, bind, liftR. rewrite Hdec.
  unfold SelectUserWhereEmail. cbv zeta.
  destruct (find _ (users w)) as [r |]; [| reflexivity].
  rewrite comparePasswords_result. cbn [scanRow PasswordHash].
  destruct (CompareHashAndPassword (row_password_hash r) (credPassword creds));
    [reflexivity |].
  unfold setUserToken, bind, CreateUserToken, ret. cbn [ID scanRow now log].
  destruct (signToken (row_id r) (now w + 24 * Hour)); reflexivity.
Qed.

Lemma loginUserHandler_no_credentials (req : Request) (w : World) :
  (forall creds, UnmarshalJSON DstCredentials req (Z.shiftl 10 kb) <> Ok (Some creds)) ->
  snd (loginUserHandler req w) = w.
Proof.
  intros Hno. unfold loginUserHandler, bind, liftR.
  destruct (UnmarshalJSON DstCredentials req (Z.shiftl 10 kb)) as [[creds |] | e];
    [| reflexivity | reflexivity].
  exfalso. exact (Hno creds eq_refl).
Qed.

(** X6: login and the profile view only read.  Whatever they return, the
    user table, the follow table, the store's next key and the entropy are
    what they were before. *)
Theorem login_and_profile_only_read (req : Request) (w : World) :
  (users (snd (loginUserHandler req w)) = users w
   /\ follow_users (snd (loginUserHandler req w)) = follow_users w
   /\ next_id (snd (loginUserHandler req w)) = next_id w
   /\ entropy (snd (loginUserHandler req w)) = entropy w)
  /\ (users (snd (profileHandler req w)) = users w
      /\ follow_users (snd (profileHandler req w)) = follow_users w
      /\ next_id (snd (profileHandler req w)) = next_id w
      /\ entropy (snd (profileHandler req w)) = entropy w).
Proof.
  split.
  - destruct (UnmarshalJSON DstCredentials req (Z.shiftl 10 kb)) as [[creds |] | e] eqn:Hdec.
    + rewrite (loginUserHandler_run req creds w Hdec). cbv zeta.
      destruct (find _ (users w)) as [r |]; [| repeat split].
      destruct (CompareHashAndPassword _ _); [repeat split |].
      destruct (signToken _ _); repeat split.
    + rewrite loginUserHandler_no_credentials; [repeat split |].
      intros c. rewrite Hdec. discriminate.
    + rewrite loginUserHandler_no_credentials; [repeat split |].
      intros c. rewrite Hdec. discriminate.
  - unfold profileHandler, bind, SelectProfile.
    destruct (find _ (users w)); repeat split.
Qed.

(** X7: on decoded credentials login succeeds exactly when a row holds the
    email, bcrypt accepts the password against that row's digest, and the
    token can be signed; the answer is then that row with the token. *)
Theorem login_succeeds_exactly_when (req : Request) (creds : Credentials) (w : World) :
  UnmarshalJSON DstCredentials req (Z.shiftl 10 kb) = Ok (Some creds) ->
  forall user : User,
    fst (loginUserHandler req w) = Ok (JSONUser user)
    <-> exists r sig,
          find (fun r => String.eqb (row_email r) (credEmail creds)) (users w) = Some r
          /\ CompareHashAndPassword (row_password_hash r) (credPassword creds) = None
          /\ signToken (row_id r) (now w + 24 * Hour) = Ok sig
          /\ user = mkUser (row_id r) (row_username r) (row_email r) (row_bio r)
                           (row_image r) "" (row_password_hash r)
                           (Some (mkToken (row_id r) (now w + 24 * Hour) sig)) false.
Proof.
  intros Hdec user.
  rewrite (loginUserHandler_run req creds w Hdec). cbv zeta.
  destruct (find _ (users w)) as [r |] eqn:Hfind.
  - destruct (CompareHashAndPassword _ _) as [e |] eqn:Hcmp.
    + split; [discriminate |].
      intros (r' & sig & Hr & Hc & _). injection Hr as <-. congruence.
    + destruct (signToken _ _) as [sig | e] eqn:Hsig.
      * split.
        -- intros H. injection H as <-. exists r, sig. repeat split; assumption.
        -- intros (r' & sig' & Hr & _ & Hs & ->). injection Hr as <-.
           rewrite Hsig in Hs. injection Hs as <-. reflexivity.
      * split; [discriminate |].
        intros (r' & sig' & Hr & _ & Hs & _). injection Hr as <-. congruence.
  - split; [discriminate |].
    intros (r' & sig & Hr & _). discriminate Hr.
Qed.

(** X8: register, then log in.  After a registration that succeeded, in
    any later world whose user table is still the one the registration left,
    a login with the draft's email and password succeeds, provided bcrypt
    accepts the password against the digest it made of it and the token can
    be signed at that moment.  The login answers with the same key, username,
    email and digest as the registration did, with a token for that key that
    expires 24 hours after the login's own instant, and changes neither
    table. *)
Theorem register_then_login
    (reg login : Request) (draft : User) (w w1 later : World) (resp : Response)
    (sig : string) :
  UnmarshalJSON DstUser reg (Z.shiftl 10 kb) = Ok (Some draft) ->
  createUserHandler reg w = (Ok resp, w1) ->
  UnmarshalJSON DstCredentials login (Z.shiftl 10 kb)
  = Ok (Some (mkCredentials (Email draft) (Password draft))) ->
  (forall hash,
     GenerateFromPassword (entropy w) (Password draft) DefaultCost = inr hash ->
     CompareHashAndPassword hash (Password draft) = None) ->
  users later = users w1 ->
  signToken (next_id w) (now later + 24 * Hour) = Ok sig ->
  exists registered loggedIn w2,
    resp = JSONUser registered
    /\ loginUserHandler login later = (Ok (JSONUser loggedIn), w2)
    /\ ID loggedIn = ID registered
    /\ Username loggedIn = Username registered
    /\ Email loggedIn = Email registered
    /\ PasswordHash loggedIn = PasswordHash registered
    /\ Token loggedIn
       = Some (mkToken (ID registered) (now later + 24 * Hour) sig)
    /\ Password loggedIn = ""
    /\ users w2 = users later
    /\ follow_users w2 = follow_users later.
Proof.
  intros Hreg Hrun Hlogin Hsound Hlater Hsig.
  rewrite (createUserHandler_run reg draft w Hreg) in Hrun. cbv zeta in Hrun.
  destruct (GenerateFromPassword _ _ _) as [e | hash] eqn:Hgen; [discriminate |].
  destruct (existsb (fun r => String.eqb (row_email r) (Email draft)) (users w))
    eqn:Hemail; [discriminate |].
  destruct (existsb (fun r => String.eqb (row_username r) (Username draft)) (users w))
    eqn:Hname; [discriminate |].
  destruct (signToken (next_id w) (now w + 24 * Hour)) as [sig0 | e];
    [| discriminate].
  injection Hrun as <- <-.
  cbn [users log set_next_id set_users set_entropy hashed] in Hlater.
  rewrite (loginUserHandler_run login _ _ Hlogin). cbv zeta.
  cbn [credEmail credPassword]. rewrite Hlater.
  rewrite (find_app_new _ (users w)
             (rowOf (set_ID (next_id w) (set_PasswordHash hash draft)))
             (existsb_false_find_none _ _ Hemail))
    by (cbn [rowOf row_email set_ID set_PasswordHash Email]; apply String.eqb_refl).
  cbn [rowOf row_password_hash row_id set_ID set_PasswordHash PasswordHash ID].
  rewrite (Hsound hash eq_refl), Hsig.
  eexists. eexists. eexists.
  split; [reflexivity |]. split; [reflexivity |]. repeat split.
  exact Hlater.
Qed.

(** *** Follow, unfollow and the profile view *)

Lemma profileHandler_run (req : Request) (target : UserRow) (w : World) :
  find (fun r => String.eqb (row_username r) (ParamUsername req)) (users w) = Some target ->
  profileHandler req w =
  (Ok (JSONProfile
         (mkProfile (row_username target) (row_bio target) (row_image target)
                    (evalColumn (followingColumn (ctxUser req)) (follow_users w) target))),
   log EvSelect w).
Proof.
  intros Hfind. unfold profileHandler, bind, SelectProfile. rewrite Hfind. reflexivity.
Qed.

Lemma unknown_username_run (req : Request) (w : World) :
  find (fun r => String.eqb (row_username r) (ParamUsername req)) (users w) = None ->
  profileHandler req w = (Err ErrNoRows, log EvSelect w)
  /\ followUserHandler req w = (Err ErrNoRows, log EvSelect w)
  /\ unfollowUserHandler req w = (Err ErrNoRows, log EvSelect w)
  /\ users (log EvSelect w) = users w.
Proof.
  intros Hfind. split; [| split; [| split; [| reflexivity]]].
  - unfold profileHandler, bind, SelectProfile. rewrite Hfind. reflexivity.
  - unfold followUserHandler, bind, SelectUserByUsername. rewrite Hfind. reflexivity.
  - unfold unfollowUserHandler, bind, SelectUserByUsername. rewrite Hfind. reflexivity.
Qed.

(** X9: a username no row holds makes the profile view, follow and unfollow
    return the store's [ErrNoRows] after their select: no insert and no
    delete is issued, and both tables are as they were. *)
Theorem unknown_username_returns_ErrNoRows (req : Request) (w : World) :
  find (fun r => String.eqb (row_username r) (ParamUsername req)) (users w) = None ->
  profileHandler req w = (Err ErrNoRows, log EvSelect w)
  /\ followUserHandler req w = (Err ErrNoRows, log EvSelect w)
  /\ unfollowUserHandler req w = (Err ErrNoRows, log EvSelect w)
  /\ users (log EvSelect w) = users w
  /\ follow_users (log EvSelect w) = follow_users w.
Proof.
  intros Hfind. split; [| split; [| split; [| split; reflexivity]]].
  - unfold profileHandler, bind, SelectProfile. rewrite Hfind. reflexivity.
  - unfold followUserHandler, bind, SelectUserByUsername. rewrite Hfind. reflexivity.
  - unfold unfollowUserHandler, bind, SelectUserByUsername. rewrite Hfind. reflexivity.
Qed.

(** A follow that succeeded found its target and no edge for the pair. *)
Lemma followUserHandler_Ok (req : Request) (auth : User) (w w1 : World) (resp : Response) :
  ctxUser req = Some auth ->
  followUserHandler req w = (Ok resp, w1) ->
  exists target,
    find (fun r => String.eqb (row_username r) (ParamUsername req)) (users w) = Some target
    /\ ~ In (mkFollowUser (ID auth) (row_id target)) (follow_users w)
    /\ resp = JSONProfile (mkProfile (row_username target) (row_bio target)
                                     (row_image target) true)
    /\ w1 = set_follow_users
              (follow_users w ++ [mkFollowUser (ID auth) (row_id target)])
              (log EvInsert (log EvSelect w)).
Proof.
  intros Hctx.
  destruct (find (fun r => String.eqb (row_username r) (ParamUsername req)) (users w))
    as [target |] eqn:Hfind.
  - rewrite (followUserHandler_run req auth target w Hctx Hfind). cbv zeta.
    destruct (existsb _ (follow_users w)) eqn:Hex; [discriminate |].
    intros H. injection H as <- <-. exists target.
    split; [reflexivity |]. split; [| split; reflexivity].
    intros Hin. apply existsb_FollowUser_In in Hin. congruence.
  - unfold followUserHandler, bind, SelectUserByUsername. rewrite Hfind. discriminate.
Qed.

(** X10: follow, then view.  After A's follow of B succeeded, the profile
    view of B with A in the context answers with the very profile the follow
    answered with, [following] being true. *)
Theorem follow_then_profile
    (req : Request) (auth : User) (w w1 : World) (resp : Response) :
  ctxUser req = Some auth ->
  followUserHandler req w = (Ok resp, w1) ->
  exists p,
    resp = JSONProfile p
    /\ fst (profileHandler req w1) = Ok (JSONProfile p)
    /\ profFollowing p = true.
Proof.
  intros Hctx Hrun.
  destruct (followUserHandler_Ok req auth w w1 resp Hctx Hrun)
    as (target & Hfind & _ & -> & ->).
  eexists. split; [reflexivity |].
  rewrite (profileHandler_run req target) by exact Hfind.
  cbn [fst follow_users set_follow_users]. rewrite Hctx. cbn [followingColumn].
  replace (evalColumn _ _ _) with true; [split; reflexivity |].
  symmetry. apply evalColumn_ExistsFollowing.
  apply in_or_app. right. left. reflexivity.
Qed.

(** X11: unfollow, then view.  After A's unfollow of an existing user B,
    whether or not A followed B, the profile view of B with A in the context
    answers with the very profile the unfollow answered with, [following]
    being false. *)
Theorem unfollow_then_profile
    (req : Request) (auth : User) (target : UserRow) (w : World) :
  ctxUser req = Some auth ->
  find (fun r => String.eqb (row_username r) (ParamUsername req)) (users w) = Some target ->
  exists p w1,
    unfollowUserHandler req w = (Ok (JSONProfile p), w1)
    /\ fst (profileHandler req w1) = Ok (JSONProfile p)
    /\ profFollowing p = false.
Proof.
  intros Hctx Hfind.
  rewrite (unfollowUserHandler_run req auth target w Hctx Hfind).
  eexists. eexists. split; [reflexivity |].
  rewrite (profileHandler_run req target) by exact Hfind.
  cbn [fst follow_users set_follow_users]. rewrite Hctx. cbn [followingColumn].
  replace (evalColumn _ _ _) with false; [split; reflexivity |].
  symmetry. apply not_true_is_false. intros H.
  apply evalColumn_ExistsFollowing in H. apply filter_In in H.
  destruct H as [_ H]. apply negb_true_iff in H.
  assert (FollowUser_eqb (mkFollowUser (ID auth) (row_id target))
                         (mkFollowUser (ID auth) (row_id target)) = true)
    by (apply FollowUser_eqb_eq; reflexivity).
  congruence.
Qed.

Lemma filter_all_true {A : Type} (f : A -> bool) (l : list A) :
  (forall x, In x l -> f x = true) -> filter f l = l.
Proof.
  induction l as [| a l IH]; simpl; intros H; [reflexivity |].
  rewrite (H a (or_introl eq_refl)). f_equal. apply IH.
  intros x Hx. apply H. right. exact Hx.
Qed.

(** X12: follow, then unfollow.  After A's follow of B succeeded, A's
    unfollow of B succeeds and the follow table is back to what it was
    before the follow. *)
Theorem follow_then_unfollow_restores_the_table
    (req : Request) (auth : User) (w w1 : World) (resp : Response) :
  ctxUser req = Some auth ->
  followUserHandler req w = (Ok resp, w1) ->
  exists p w2,
    unfollowUserHandler req w1 = (Ok (JSONProfile p), w2)
    /\ profFollowing p = false
    /\ follow_users w2 = follow_users w
    /\ users w2 = users w.
Proof.
  intros Hctx Hrun.
  destruct (followUserHandler_Ok req auth w w1 resp Hctx Hrun)
    as (target & Hfind & Hnew & _ & ->).
  rewrite (unfollowUserHandler_run req auth target) by assumption.
  eexists. eexists. split; [reflexivity |]. split; [reflexivity |].
  cbn [follow_users users set_follow_users log]. split; [| reflexivity].
  rewrite filter_app. simpl.
  replace (FollowUser_eqb _ _) with true
    by (symmetry; apply FollowUser_eqb_eq; reflexivity).
  simpl. rewrite app_nil_r. apply filter_all_true.
  intros fu Hin. apply negb_true_iff.
  destruct (FollowUser_eqb _ fu) eqn:E; [| reflexivity].
  apply FollowUser_eqb_eq in E. subst fu. contradiction.
Qed.

Lemma edgeCount_other_follower (a b a' b' : Z) (fus : list FollowUser) :
  a <> a' ->
  edgeCount a b (fus ++ [mkFollowUser a' b']) = edgeCount a b fus.
Proof.
  intros Hne. rewrite edgeCount_app. unfold edgeCount at 2. simpl.
  unfold FollowUser_eqb. simpl.
  replace (Z.eqb a a') with false by (symmetry; apply Z.eqb_neq; exact Hne).
  simpl. lia.
Qed.

Lemma edgeCount_filter_other_follower (a b a' b' : Z) (fus : list FollowUser) :
  a <> a' ->
  edgeCount a b
    (filter (fun fu => negb (FollowUser_eqb (mkFollowUser a' b') fu)) fus)
  = edgeCount a b fus.
Proof.
  intros Hne. unfold edgeCount.
  induction fus as [| fu fus IH]; simpl; [reflexivity |].
  destruct (FollowUser_eqb (mkFollowUser a' b') fu) eqn:E1; simpl.
  - apply FollowUser_eqb_eq in E1. subst fu.
    replace (FollowUser_eqb (mkFollowUser a b) (mkFollowUser a' b')) with false.
    + exact IH.
    + symmetry. apply not_true_is_false. intros H.
      apply FollowUser_eqb_eq in H. injection H as H _. contradiction.
  - destruct (FollowUser_eqb (mkFollowUser a b) fu); simpl; rewrite IH; reflexivity.
Qed.

(** X13: follow and unfollow by A touch only edges whose follower is A.
    Whatever they return, the user table is unchanged and, for every other
    follower and every followed user, the number of edges is unchanged. *)
Theorem follow_and_unfollow_touch_only_the_callers_edges
    (req : Request) (auth : User) (w : World) (a b : Z) :
  ctxUser req = Some auth ->
  a <> ID auth ->
  (users (snd (followUserHandler req w)) = users w
   /\ edgeCount a b (follow_users (snd (followUserHandler req w)))
      = edgeCount a b (follow_users w))
  /\ (users (snd (unfollowUserHandler req w)) = users w
      /\ edgeCount a b (follow_users (snd (unfollowUserHandler req w)))
         = edgeCount a b (follow_users w)).
Proof.
  intros Hctx Hne.
  destruct (find (fun r => String.eqb (row_username r) (ParamUsername req)) (users w))
    as [target |] eqn:Hfind.
  - rewrite (followUserHandler_run req auth target w Hctx Hfind).
    rewrite (unfollowUserHandler_run req auth target w Hctx Hfind). cbv zeta.
    split.
    + destruct (existsb _ (follow_users w)); cbn [snd users follow_users set_follow_users log].
      * split; reflexivity.
      * split; [reflexivity |]. apply edgeCount_other_follower. exact Hne.
    + cbn [snd users follow_users set_follow_users log].
      split; [reflexivity |]. apply edgeCount_filter_other_follower. exact Hne.
  - destruct (unknown_username_run req w Hfind) as (_ & -> & -> & _).
    split; split; reflexivity.
Qed.

(** X14: the follow handler does not refuse a user who follows themself:
    when the [username] parameter names the caller's own row and no such
    edge exists, the follow succeeds and the edge (A,A) is in the table. *)
Theorem self_follow_is_accepted
    (req : Request) (auth : User) (target : UserRow) (w : World) :
  ctxUser req = Some auth ->
  find (fun r => String.eqb (row_username r) (ParamUsername req)) (users w) = Some target ->
  row_id target = ID auth ->
  ~ In (mkFollowUser (ID auth) (ID auth)) (follow_users w) ->
  exists p w1,
    followUserHandler req w = (Ok (JSONProfile p), w1)
    /\ profFollowing p = true
    /\ In (mkFollowUser (ID auth) (ID auth)) (follow_users w1).
Proof.
  intros Hctx Hfind Hself Hnew.
  rewrite (followUserHandler_run req auth target w Hctx Hfind). cbv zeta.
  rewrite Hself.
  replace (existsb _ (follow_users w)) with false.
  - eexists. eexists. split; [reflexivity |]. split; [reflexivity |].
    cbn [follow_users set_follow_users]. apply in_or_app. right. left. reflexivity.
  - symmetry. apply not_true_is_false. intros H.
    apply existsb_FollowUser_In in H. contradiction.
Qed.

(** *** Profile update *)

Lemma map_row_id_update (upd : UserRow -> UserRow) (id : Z) (rows : list UserRow) :
  (forall r, row_id (upd r) = row_id r) ->
  map row_id (map (fun r => if Z.eqb (row_id r) id then upd r else r) rows)
  = map row_id rows.
Proof.
  intros Hid. induction rows as [| r rows IH]; simpl; [reflexivity |].
  rewrite IH. destruct (Z.eqb (row_id r) id); [rewrite Hid |]; reflexivity.
Qed.

(** X15: an update that succeeds overwrites the caller's row wholesale: the
    stored username, email, bio and image are the draft's, also where the
    draft leaves them empty.  The answer is the context user with the
    columns of the returned row: it keeps the caller's key and the token the
    context user carried.  The handler makes two calls, the digest and the
    update statement; it signs no token. *)
Theorem update_overwrites_the_row_wholesale
    (req : Request) (draft auth : User) (w w' : World) (resp : Response) :
  UnmarshalJSON DstUser req (Z.shiftl 10 kb) = Ok (Some draft) ->
  ctxUser req = Some auth ->
  updateUserHandler req w = (Ok resp, w') ->
  (forall r, In r (rowsOf (ID auth) (users w')) ->
     row_username r = Username draft /\ row_email r = Email draft
     /\ row_bio r = Bio draft /\ row_image r = Image draft)
  /\ exists a,
       resp = JSONUser a
       /\ ID a = ID auth
       /\ Username a = Username draft /\ Email a = Email draft
       /\ Bio a = Bio draft /\ Image a = Image draft
       /\ Token a = Token auth
       /\ trace w'
          = (trace w ++ [EvGenerateFromPassword (Password draft); EvUpdate])%list.
Proof.
  intros Hdec Hctx.
  rewrite (updateUserHandler_run req draft auth w Hdec Hctx). cbv zeta.
  destruct (GenerateFromPassword _ _ _) as [e | hash]; [discriminate |].
  unfold UpdateUserWhereID.
  destruct (find _ _) as [r |] eqn:Hfind; [| discriminate].
  destruct (existsb _ _); [discriminate |].
  destruct (existsb _ _); [discriminate |].
  intros Hrun. injection Hrun as <- <-.
  cbn [users set_users log set_entropy trace].
  split.
  - rewrite rowsOf_update_hit by reflexivity.
    intros r' Hin. apply in_map_iff in Hin. destruct Hin as (r0 & <- & _).
    repeat split.
  - eexists. split; [reflexivity |].
    apply find_some in Hfind. destruct Hfind as [_ Hid]. apply Z.eqb_eq in Hid.
    cbn [scanRow setColumns ID Username Email Bio Image Token
         row_id row_username row_email row_bio row_image].
    split; [exact Hid |]. repeat (split; [reflexivity |]).
    rewrite <- app_assoc. reflexivity.
Qed.

(** X16: whatever an update returns, it adds no row, removes none and
    changes no key: the keys of the user table, in order, are what they
    were; the follow table and the store's next key are untouched. *)
Theorem update_keeps_keys_and_follow_table (req : Request) (w : World) :
  map row_id (users (snd (updateUserHandler req w))) = map row_id (users w)
  /\ follow_users (snd (updateUserHandler req w)) = follow_users w
  /\ next_id (snd (updateUserHandler req w)) = next_id w.
Proof.
  unfold updateUserHandler, bind, liftR.
  destruct (UnmarshalJSON DstUser req (Z.shiftl 10 kb)) as [[draft |] | e];
    [| repeat split | repeat split].
  unfold hashPassword.
  destruct (GenerateFromPassword _ _ _) as [e | hash]; [repeat split |].
  destruct (ctxUser req) as [auth |]; [| repeat split].
  cbn [deref ret]. unfold UpdateUserWhereID.
  cbn [users log set_entropy].
  destruct (find _ (users w)) as [r |]; [| repeat split].
  destruct (existsb _ (users w)); [repeat split |].
  destruct (existsb _ (users w)); [repeat split |].
  cbn [snd users set_users follow_users next_id log set_entropy].
  split; [| split; reflexivity].
  apply map_row_id_update. reflexivity.
Qed.

(** *** Registering twice *)

(** X18: register, then register again.  After a registration that
    succeeded, in any later world whose user table is still the one the
    registration left, a second registration with the same body does not
    succeed: once its password is hashed, the store rejects the insert for a
    unique index and the handler returns that violation as it is; both
    tables are left as they were. *)
Theorem second_registration_is_rejected
    (req : Request) (draft : User) (w w1 later : World) (resp : Response) :
  UnmarshalJSON DstUser req (Z.shiftl 10 kb) = Ok (Some draft) ->
  createUserHandler req w = (Ok resp, w1) ->
  users later = users w1 ->
  (forall resp', fst (createUserHandler req later) <> Ok resp')
  /\ (forall hash,
        GenerateFromPassword (entropy later) (Password draft) DefaultCost = inr hash ->
        exists c, fst (createUserHandler req later) = Err (ErrIntegrityViolation c))
  /\ users (snd (createUserHandler req later)) = users later
  /\ follow_users (snd (createUserHandler req later)) = follow_users later.
Proof.
  intros Hdec Hrun Hlater.
  rewrite (createUserHandler_run req draft w Hdec) in Hrun. cbv zeta in Hrun.
  destruct (GenerateFromPassword (entropy w) _ _) as [e | hash]; [discriminate |].
  destruct (existsb (fun r => String.eqb (row_email r) (Email draft)) (users w));
    [discriminate |].
  destruct (existsb (fun r => String.eqb (row_username r) (Username draft)) (users w));
    [discriminate |].
  destruct (signToken _ _) as [sig | e]; [| discriminate].
  injection Hrun as _ <-.
  cbn [users log set_next_id set_users set_entropy hashed] in Hlater.
  rewrite (createUserHandler_run req draft _ Hdec). cbv zeta.
  assert (Htaken : existsb (fun r => String.eqb (row_email r) (Email draft)) (users later)
                   = true).
  { rewrite Hlater, existsb_app. apply orb_true_iff. right. simpl.
    rewrite String.eqb_refl. reflexivity. }
  rewrite Htaken.
  destruct (GenerateFromPassword _ _ _) as [e | hash'].
  - split; [discriminate |]. split; [discriminate |]. split; reflexivity.
  - split; [discriminate |].
    split; [intros h _; eexists; reflexivity |]. split; reflexivity.
Qed.

(** *** Errors of the decoder *)

(** X19: the three handlers that read a body call the decoder with the
    limit [10<<kb = 10240] bytes before anything else, and return whatever
    error it gives at once, with the world untouched: no password was hashed
    and no statement reached the store. *)
Theorem decoder_error_is_returned_first (req : Request) (w : World) (e : error) :
  (UnmarshalJSON DstUser req 10240 = Err e ->
   createUserHandler req w = (Err e, w)
   /\ updateUserHandler req w = (Err e, w))
  /\ (UnmarshalJSON DstCredentials req 10240 = Err e ->
      loginUserHandler req w = (Err e, w)).
Proof.
  split; intros Hdec.
  - split.
    + unfold createUserHandler. apply bind_Err_step.
      unfold liftR. rewrite body_limit, Hdec. reflexivity.
    + unfold updateUserHandler. apply bind_Err_step.
      unfold liftR. rewrite body_limit, Hdec. reflexivity.
  - unfold loginUserHandler. apply bind_Err_step.
    unfold liftR. rewrite body_limit, Hdec. reflexivity.
Qed.

End FurtherProperties.

(** ** The further properties at the sample instantiation *)

Lemma missing_user_field_witness :
  (createUserHandler (bcrypt := Sample.bcrypt) (signer := Sample.signer)
     (httputil := Sample.httputil) Sample.emptyRequest Sample.w2
   = (Err errUserRequired, Sample.w2)
   /\ updateUserHandler (bcrypt := Sample.bcrypt) (httputil := Sample.httputil)
        Sample.emptyRequest Sample.w2
      = (Err errUserRequired, Sample.w2))
  /\ loginUserHandler (bcrypt := Sample.bcrypt) (signer := Sample.signer)
       (httputil := Sample.httputil) Sample.emptyRequest Sample.w2
     = (Err errUserRequired, Sample.w2).
Proof.
  destruct (missing_user_field_is_rejected
              (bcrypt := Sample.bcrypt) (signer := Sample.signer)
              (httputil := Sample.httputil) Sample.emptyRequest Sample.w2) as [H1 H2].
  split; [apply H1 | apply H2]; vm_compute; reflexivity.
Defined.

Lemma hashing_failure_witness :
  createUserHandler (bcrypt := Sample.bcrypt) (signer := Sample.signer)
    (httputil := Sample.httputil) Sample.registerCarolLong Sample.w2
  = (Err (ErrBcrypt ErrPasswordTooLong), hashed Sample.longPassword Sample.w2)
  /\ updateUserHandler (bcrypt := Sample.bcrypt) (httputil := Sample.httputil)
       Sample.registerCarolLong Sample.w2
     = (Err (ErrBcrypt ErrPasswordTooLong), hashed Sample.longPassword Sample.w2)
  /\ users (hashed Sample.longPassword Sample.w2) = users Sample.w2
  /\ follow_users (hashed Sample.longPassword Sample.w2) = follow_users Sample.w2
  /\ trace (hashed Sample.longPassword Sample.w2)
     = (trace Sample.w2 ++ [EvGenerateFromPassword Sample.longPassword])%list.
Proof.
  apply (hashing_failure_stops_before_the_store
           (bcrypt := Sample.bcrypt) (signer := Sample.signer)
           (httputil := Sample.httputil)
           Sample.registerCarolLong Sample.carolLongDraft ErrPasswordTooLong Sample.w2);
    vm_compute; reflexivity.
Defined.

Lemma registration_without_token_witness :
  fst (createUserHandler (bcrypt := Sample.bcrypt) (signer := Sample.brokenSigner)
         (httputil := Sample.httputil) Sample.registerCarol Sample.w2)
  = Err (ErrSign "no signing key")
  /\ users (snd (createUserHandler (bcrypt := Sample.bcrypt)
                   (signer := Sample.brokenSigner) (httputil := Sample.httputil)
                   Sample.registerCarol Sample.w2))
     = (users Sample.w2
        ++ [mkUserRow (next_id Sample.w2) (Username Sample.carolDraft)
              (Email Sample.carolDraft) (Bio Sample.carolDraft)
              (Image Sample.carolDraft) "$2a$10$CCCCCCCCCCCCCCCCCCCCCCpw"])%list.
Proof.
  apply (registration_keeps_the_row_when_signing_fails
           (bcrypt := Sample.bcrypt) (signer := Sample.brokenSigner)
           (httputil := Sample.httputil)
           Sample.registerCarol Sample.carolDraft "$2a$10$CCCCCCCCCCCCCCCCCCCCCCpw"
           (ErrSign "no signing key") Sample.w2).
  - vm_compute. reflexivity.
  - vm_compute. reflexivity.
  - intros r Hr. vm_compute in Hr.
    destruct Hr as [<- | [<- | []]]; vm_compute; split; discriminate.
  - vm_compute. reflexivity.
Defined.

Lemma registration_stores_the_draft_witness :
  exists draft hash user,
    UnmarshalJSON (Httputil := Sample.httputil) DstUser Sample.registerCarol
      (Z.shiftl 10 kb) = Ok (Some draft)
    /\ GenerateFromPassword (Bcrypt := Sample.bcrypt)
         (entropy Sample.w2) (Password draft) DefaultCost = inr hash
    /\ users Sample.w2c
       = (users Sample.w2 ++ [mkUserRow (next_id Sample.w2) (Username draft)
                                (Email draft) (Bio draft) (Image draft) hash])%list
    /\ next_id Sample.w2c = next_id Sample.w2 + 1
    /\ JSONUser Sample.registeredCarol = JSONUser user
    /\ ID user = next_id Sample.w2
    /\ PasswordHash user = hash
    /\ Username user = Username draft
    /\ Email user = Email draft.
Proof.
  apply (registration_stores_the_draft_with_its_digest
           (bcrypt := Sample.bcrypt) (signer := Sample.signer)
           (httputil := Sample.httputil)
           Sample.registerCarol Sample.w2 Sample.w2c (JSONUser Sample.registeredCarol)).
  vm_compute. reflexivity.
Defined.

Lemma login_succeeds_exactly_when_witness :
  fst (loginUserHandler (bcrypt := Sample.bcrypt) (signer := Sample.signer)
         (httputil := Sample.httputil) Sample.loginAlice Sample.w2)
  = Ok (JSONUser Sample.registeredAlice)
  <-> exists r sig,
        find (fun r => String.eqb (row_email r) "alice@x.com") (users Sample.w2) = Some r
        /\ CompareHashAndPassword (Bcrypt := Sample.bcrypt)
             (row_password_hash r) "secret" = None
        /\ signToken (TokenSigner := Sample.signer)
             (row_id r) (now Sample.w2 + 24 * Hour) = Ok sig
        /\ Sample.registeredAlice
           = mkUser (row_id r) (row_username r) (row_email r) (row_bio r)
                    (row_image r) "" (row_password_hash r)
                    (Some (mkToken (row_id r) (now Sample.w2 + 24 * Hour) sig)) false.
Proof.
  apply (login_succeeds_exactly_when
           (bcrypt := Sample.bcrypt) (signer := Sample.signer)
           (httputil := Sample.httputil)
           Sample.loginAlice (mkCredentials "alice@x.com" "secret") Sample.w2).
  vm_compute. reflexivity.
Defined.

Lemma register_then_login_witness :
  exists registered loggedIn w2,
    JSONUser Sample.registeredCarol = JSONUser registered
    /\ loginUserHandler (bcrypt := Sample.bcrypt) (signer := Sample.signer)
         (httputil := Sample.httputil) Sample.loginCarol Sample.w2cLater
       = (Ok (JSONUser loggedIn), w2)
    /\ ID loggedIn = ID registered
    /\ Username loggedIn = Username registered
    /\ Email loggedIn = Email registered
    /\ PasswordHash loggedIn = PasswordHash registered
    /\ Token loggedIn
       = Some (mkToken (ID registered) (now Sample.w2cLater + 24 * Hour) "signature")
    /\ Password loggedIn = ""
    /\ users w2 = users Sample.w2cLater
    /\ follow_users w2 = follow_users Sample.w2cLater.
Proof.
  apply (register_then_login
           (bcrypt := Sample.bcrypt) (signer := Sample.signer)
           (httputil := Sample.httputil)
           Sample.registerCarol Sample.loginCarol Sample.carolDraft
           Sample.w2 Sample.w2c Sample.w2cLater (JSONUser Sample.registeredCarol)
           "signature").
  - vm_compute. reflexivity.
  - vm_compute. reflexivity.
  - vm_compute. reflexivity.
  - intros hash H. vm_compute in H. injection H as <-. vm_compute. reflexivity.
  - vm_compute. reflexivity.
  - vm_compute. reflexivity.
Defined.

Lemma unknown_username_witness :
  profileHandler Sample.aliceFollowsNobody Sample.w2
  = (Err ErrNoRows, log EvSelect Sample.w2)
  /\ followUserHandler Sample.aliceFollowsNobody Sample.w2
     = (Err ErrNoRows, log EvSelect Sample.w2)
  /\ unfollowUserHandler Sample.aliceFollowsNobody Sample.w2
     = (Err ErrNoRows, log EvSelect Sample.w2)
  /\ users (log EvSelect Sample.w2) = users Sample.w2
  /\ follow_users (log EvSelect Sample.w2) = follow_users Sample.w2.
Proof.
  apply (unknown_username_returns_ErrNoRows Sample.aliceFollowsNobody Sample.w2).
  vm_compute. reflexivity.
Defined.

Lemma follow_then_profile_witness :
  exists p,
    JSONProfile Sample.bobProfile = JSONProfile p
    /\ fst (profileHandler Sample.aliceFollowsBob Sample.w3) = Ok (JSONProfile p)
    /\ profFollowing p = true.
Proof.
  apply (follow_then_profile Sample.aliceFollowsBob Sample.alice Sample.w2 Sample.w3
           (JSONProfile Sample.bobProfile));
    vm_compute; reflexivity.
Defined.

Lemma unfollow_then_profile_witness :
  exists p w1,
    unfollowUserHandler Sample.aliceFollowsBob Sample.w3 = (Ok (JSONProfile p), w1)
    /\ fst (profileHandler Sample.aliceFollowsBob w1) = Ok (JSONProfile p)
    /\ profFollowing p = false.
Proof.
  apply (unfollow_then_profile Sample.aliceFollowsBob Sample.alice Sample.bobRow Sample.w3);
    vm_compute; reflexivity.
Defined.

Lemma follow_then_unfollow_witness :
  exists p w2,
    unfollowUserHandler Sample.aliceFollowsBob Sample.w3 = (Ok (JSONProfile p), w2)
    /\ profFollowing p = false
    /\ follow_users w2 = follow_users Sample.w2
    /\ users w2 = users Sample.w2.
Proof.
  apply (follow_then_unfollow_restores_the_table
           Sample.aliceFollowsBob Sample.alice Sample.w2 Sample.w3
           (JSONProfile Sample.bobProfile));
    vm_compute; reflexivity.
Defined.

Lemma callers_edges_witness :
  (users (snd (followUserHandler Sample.aliceFollowsBob Sample.w2)) = users Sample.w2
   /\ edgeCount 2 1 (follow_users (snd (followUserHandler Sample.aliceFollowsBob Sample.w2)))
      = edgeCount 2 1 (follow_users Sample.w2))
  /\ (users (snd (unfollowUserHandler Sample.aliceFollowsBob Sample.w2)) = users Sample.w2
      /\ edgeCount 2 1 (follow_users (snd (unfollowUserHandler Sample.aliceFollowsBob Sample.w2)))
         = edgeCount 2 1 (follow_users Sample.w2)).
Proof.
  apply (follow_and_unfollow_touch_only_the_callers_edges
           Sample.aliceFollowsBob Sample.alice Sample.w2 2 1).
  - reflexivity.
  - vm_compute. discriminate.
Defined.

Lemma self_follow_witness :
  exists p w1,
    followUserHandler Sample.aliceFollowsAlice Sample.w2 = (Ok (JSONProfile p), w1)
    /\ profFollowing p = true
    /\ In (mkFollowUser (ID Sample.alice) (ID Sample.alice)) (follow_users w1).
Proof.
  apply (self_follow_is_accepted
           Sample.aliceFollowsAlice Sample.alice Sample.aliceRow Sample.w2).
  - reflexivity.
  - vm_compute. reflexivity.
  - reflexivity.
  - vm_compute. intros [].
Defined.

Lemma update_overwrites_witness :
  (forall r, In r (rowsOf (ID Sample.alice) (users Sample.w2u)) ->
     row_username r = Username Sample.aliceBioDraft
     /\ row_email r = Email Sample.aliceBioDraft
     /\ row_bio r = Bio Sample.aliceBioDraft
     /\ row_image r = Image Sample.aliceBioDraft)
  /\ exists a,
       JSONUser Sample.updatedAlice = JSONUser a
       /\ ID a = ID Sample.alice
       /\ Username a = Username Sample.aliceBioDraft
       /\ Email a = Email Sample.aliceBioDraft
       /\ Bio a = Bio Sample.aliceBioDraft
       /\ Image a = Image Sample.aliceBioDraft
       /\ Token a = Token Sample.alice
       /\ trace Sample.w2u
          = (trace Sample.w2
             ++ [EvGenerateFromPassword (Password Sample.aliceBioDraft); EvUpdate])%list.
Proof.
  apply (update_overwrites_the_row_wholesale
           (bcrypt := Sample.bcrypt) (httputil := Sample.httputil)
           Sample.updateAliceBio Sample.aliceBioDraft Sample.alice
           Sample.w2 Sample.w2u (JSONUser Sample.updatedAlice));
    vm_compute; reflexivity.
Defined.

Lemma login_wrong_password_witness :
  fst (loginUserHandler (bcrypt := Sample.bcrypt) (signer := Sample.signer)
         (httputil := Sample.httputil) Sample.loginAliceWrong Sample.w2)
  = Err errUserNotFound.
Proof.
  apply (login_wrong_password_returns_errUserNotFound
           (bcrypt := Sample.bcrypt) (signer := Sample.signer)
           (httputil := Sample.httputil)
           Sample.loginAliceWrong (mkCredentials "alice@x.com" "wrong") Sample.w2
           Sample.aliceRow ErrMismatchedHashAndPassword);
    vm_compute; reflexivity.
Defined.

Lemma second_registration_witness :
  (forall resp',
     fst (createUserHandler (bcrypt := Sample.bcrypt) (signer := Sample.signer)
            (httputil := Sample.httputil) Sample.registerCarol Sample.w2cLater)
     <> Ok resp')
  /\ (forall hash,
        GenerateFromPassword (Bcrypt := Sample.bcrypt)
          (entropy Sample.w2cLater) (Password Sample.carolDraft) DefaultCost = inr hash ->
        exists c,
          fst (createUserHandler (bcrypt := Sample.bcrypt) (signer := Sample.signer)
                 (httputil := Sample.httputil) Sample.registerCarol Sample.w2cLater)
          = Err (ErrIntegrityViolation c))
  /\ users (snd (createUserHandler (bcrypt := Sample.bcrypt) (signer := Sample.signer)
                   (httputil := Sample.httputil) Sample.registerCarol Sample.w2cLater))
     = users Sample.w2cLater
  /\ follow_users (snd (createUserHandler (bcrypt := Sample.bcrypt)
                          (signer := Sample.signer) (httputil := Sample.httputil)
                          Sample.registerCarol Sample.w2cLater))
     = follow_users Sample.w2cLater.
Proof.
  apply (second_registration_is_rejected
           (bcrypt := Sample.bcrypt) (signer := Sample.signer)
           (httputil := Sample.httputil)
           Sample.registerCarol Sample.carolDraft Sample.w2 Sample.w2c
           Sample.w2cLater (JSONUser Sample.registeredCarol));
    vm_compute; reflexivity.
Defined.

Lemma decoder_error_witness :
  (createUserHandler (bcrypt := Sample.bcrypt) (signer := Sample.signer)
     (httputil := Sample.httputil) Sample.bigRequest Sample.w2
   = (Err (ErrUnmarshal "request body too large"), Sample.w2)
   /\ updateUserHandler (bcrypt := Sample.bcrypt) (httputil := Sample.httputil)
        Sample.bigRequest Sample.w2
      = (Err (ErrUnmarshal "request body too large"), Sample.w2))
  /\ loginUserHandler (bcrypt := Sample.bcrypt) (signer := Sample.signer)
       (httputil := Sample.httputil) Sample.bigRequest Sample.w2
     = (Err (ErrUnmarshal "request body too large"), Sample.w2).
Proof.
  destruct (decoder_error_is_returned_first
              (bcrypt := Sample.bcrypt) (signer := Sample.signer)
              (httputil := Sample.httputil) Sample.bigRequest Sample.w2
              (ErrUnmarshal "request body too large")) as [H1 H2].
  split; [apply H1 | apply H2]; vm_compute; reflexivity.
Defined.
